(** * pysui synchronous client: execution, signing and pagination pipeline

    A shallow embedding of [pysui/sui/sui_clients/sync_client.py]
    (class [SuiClient]).  Python objects are values of [pyval], raised
    exceptions and envelopes are kept apart ([Raise] versus a returned
    [SuiRpcResult]), and every [self._client.post] is recorded in the
    world, so that round trips can be counted and ordered. *)

From Stdlib Require Import List String ZArith Bool Lia Arith.
Import ListNotations.
Local Open Scope string_scope.
Set Warnings "-register-all".

(* ===================================================================== *)
(** ** Python values                                                       *)
(* ===================================================================== *)

(** Parsed JSON, as [response.json()] returns it. *)
Inductive json : Type :=
| JNull
| JBool (b : bool)
| JNum (n : Z)
| JStr (s : string)
| JArr (items : list json)
| JObj (fields : list (string * json)).

(** The objects that travel through the client.  [PyFormat p v] is the
    f-string [f"p{v}"], kept symbolic. *)
Inductive pyval : Type :=
| PyNone
| PyStr (s : string)
| PyFormat (prefix : string) (v : pyval)
| PyJson (j : json)
| PyList (items : list pyval)
| PySig (s : string)                              (* SuiSignature *)
| PyTxBytes (s : string)                          (* SuiTxBytes *)
| PyPre (authority : string) (tx_bytes : pyval)   (* PreExecutionResult *)
| PyBalance (coin_object_count : Z)               (* SuiCoinBalance *)
| PyPage (data : list pyval) (next_cursor : option string)
         (has_next_page : bool)                   (* SuiCoinObjects, ObjectReadPage *)
| PyFaucet (j : json).                            (* FaucetGasRequest *)

(** The httpx failures the transport can raise. *)
Inductive httpx_exc : Type :=
| ConnectError | ReadError
| ConnectTimeout | ReadTimeout | WriteTimeout | PoolTimeout
| InvalidURL | CookieConflict.

Definition class_name (e : httpx_exc) : string :=
  match e with
  | ConnectError => "ConnectError"
  | ReadError => "ReadError"
  | ConnectTimeout => "ConnectTimeout"
  | ReadTimeout => "ReadTimeout"
  | WriteTimeout => "WriteTimeout"
  | PoolTimeout => "PoolTimeout"
  | InvalidURL => "InvalidURL"
  | CookieConflict => "CookieConflict"
  end.

(** [issubclass(e, httpx.HTTPError)]: [InvalidURL] and [CookieConflict]
    derive from [Exception] directly. *)
Definition is_HTTPError (e : httpx_exc) : bool :=
  match e with
  | InvalidURL | CookieConflict => false
  | _ => true
  end.

(** [vars(hexc)]: request errors carry the request, the two others
    carry nothing. *)
Definition httpx_vars (e : httpx_exc) : json :=
  if is_HTTPError e then JObj [("_request", JNull)] else JObj [].

(** [json.JSONDecodeError] and its instance attributes. *)
Record JSONDecodeError : Type := mkJSONDecodeError {
  msg : string;
  doc : string;
  pos : Z;
  lineno : Z;
  colno : Z
}.

Definition json_vars (j : JSONDecodeError) : json :=
  JObj [("msg", JStr (msg j)); ("doc", JStr (doc j)); ("pos", JNum (pos j));
        ("lineno", JNum (lineno j)); ("colno", JNum (colno j))].

(** Exceptions that leave a method of the client. *)
Inductive exn : Type :=
| KeyError (key : string)
| TypeError
| AttributeError (attr : string)
| ValueError (message : pyval)
| HttpxError (e : httpx_exc)
| UnknownAddress (address : string)
| SuiRpcApiError (reason : string).

(* ===================================================================== *)
(** ** Builders, requests and the remote endpoint                          *)
(* ===================================================================== *)

Inductive SuiRequestType : Type :=
| WAITFOREFFECTSCERT
| WAITFORLOCALEXECUTION.

(** The builder contract: the RPC method and its parameters, whether a
    transaction has to be signed, the signer, the paging cursor, and the
    interpretation of the raw [result]. *)
Record SuiBaseBuilder : Type := mkBuilder {
  method : string;
  txn_required : bool;
  authority : string;
  params : list (string * pyval);
  cursor : option string;
  handle_return : json -> pyval
}.

Definition set_cursor (b : SuiBaseBuilder) (c : option string) : SuiBaseBuilder :=
  mkBuilder (method b) (txn_required b) (authority b) (params b) c
            (handle_return b).

(** One [self._client.post]: to the RPC endpoint with the payload of a
    builder, or to the faucet for a recipient. *)
Inductive request : Type :=
| RpcPost (builder : SuiBaseBuilder)
| FaucetPost (recipient : string).

(** What a post and the [.json()] that follows it come to.  The endpoint
    speaks JSON-RPC, so a decoded body is a JSON object. *)
Inductive response : Type :=
| Body (fields : list (string * json))
| BadJson (jexc : JSONDecodeError)
| HttpxFail (hexc : httpx_exc).

(** The world: the remote service, which answers a request knowing the
    requests before it, and the requests sent so far, oldest first. *)
Record world : Type := mkWorld {
  remote : list request -> request -> response;
  sent : list request
}.

(* ===================================================================== *)
(** ** A monad for state, exceptions and bounded loops                     *)
(* ===================================================================== *)

Inductive outcome (A : Type) : Type :=
| Ret (a : A)
| Raise (e : exn)
| OutOfFuel.
Arguments Ret {A} a.
Arguments Raise {A} e.
Arguments OutOfFuel {A}.

Definition M (A : Type) : Type := world -> outcome A * world.

Definition ret {A} (a : A) : M A := fun w => (Ret a, w).
Definition raise {A} (e : exn) : M A := fun w => (Raise e, w).
Definition out_of_fuel {A} : M A := fun w => (OutOfFuel, w).

Definition bind {A B} (c : M A) (k : A -> M B) : M B :=
  fun w =>
    match c w with
    | (Ret a, w') => k a w'
    | (Raise e, w') => (Raise e, w')
    | (OutOfFuel, w') => (OutOfFuel, w')
    end.

(** A pure computation that may raise, run inside [M]. *)
Definition lift {A} (o : outcome A) : M A := fun w => (o, w).

Declare Scope py_scope.
Delimit Scope py_scope with py.
Notation "x <- c ;; k" := (bind c (fun x => k))
  (at level 100, c at next level, right associativity) : py_scope.
Local Open Scope py_scope.

(** [self._client.post(...)] followed by [.json()]. *)
Definition post (r : request) : M response :=
  fun w => (Ret (remote w (sent w) r), mkWorld (remote w) (sent w ++ [r])).

(* ===================================================================== *)
(** ** Dictionaries, attributes and truth values                           *)
(* ===================================================================== *)

Fixpoint lookup (k : string) (fields : list (string * json)) : option json :=
  match fields with
  | [] => None
  | (k', v) :: rest => if String.eqb k k' then Some v else lookup k rest
  end.

Definition has_key (k : string) (fields : list (string * json)) : bool :=
  match lookup k fields with Some _ => true | None => false end.

(** [k in v] for a string [k]: defined on dictionaries. *)
Definition contains (k : string) (v : pyval) : outcome bool :=
  match v with
  | PyJson (JObj fields) => Ret (has_key k fields)
  | _ => Raise TypeError
  end.

(** [v[k]] for a string [k]. *)
Definition getitem (k : string) (v : pyval) : outcome pyval :=
  match v with
  | PyJson (JObj fields) =>
      match lookup k fields with
      | Some x => Ret (PyJson x)
      | None => Raise (KeyError k)
      end
  | _ => Raise TypeError
  end.

(** The argument of [handle_return]: the raw JSON under a subscript. *)
Definition raw (v : pyval) : json :=
  match v with
  | PyJson j => j
  | _ => JNull
  end.

Definition attr_tx_bytes (v : pyval) : outcome pyval :=
  match v with
  | PyPre _ t => Ret t
  | PyTxBytes s => Ret (PyStr s)
  | _ => Raise (AttributeError "tx_bytes")
  end.

Definition attr_coin_object_count (v : pyval) : outcome Z :=
  match v with
  | PyBalance n => Ret n
  | _ => Raise (AttributeError "coin_object_count")
  end.

Definition attr_data (v : pyval) : outcome (list pyval) :=
  match v with
  | PyPage d _ _ => Ret d
  | _ => Raise (AttributeError "data")
  end.

Definition attr_next_cursor (v : pyval) : outcome (option string) :=
  match v with
  | PyPage _ c _ => Ret c
  | _ => Raise (AttributeError "next_cursor")
  end.

Definition attr_has_next_page (v : pyval) : outcome bool :=
  match v with
  | PyPage _ _ h => Ret h
  | _ => Raise (AttributeError "has_next_page")
  end.

(** Truth value of a cursor: [None] and the empty string are false. *)
Definition truthy (c : option string) : bool :=
  match c with
  | None => false
  | Some s => negb (String.eqb s "")
  end.


(* ===================================================================== *)
(** ** Result envelope, signers and client state                           *)
(* ===================================================================== *)

(** [SuiRpcResult(result_status, result_string, result_data=None)]. *)
Record SuiRpcResult : Type := mkResult {
  result_status : bool;
  result_string : pyval;
  result_data : pyval
}.

Definition is_ok (r : SuiRpcResult) : bool := result_status r.

(** A key pair is an object with a [new_sign_secure] method; a multisig
    is an object with a [sign] method over the bytes and the public keys.
    What they compute is the business of [sui_crypto]. *)
Record SuiKeyPair : Type := mkKeyPair {
  new_sign_secure : pyval -> pyval
}.

Definition SuiPublicKey : Type := string.

Record MultiSig : Type := mkMultiSig {
  sign : pyval -> list SuiPublicKey -> pyval
}.

(** What a caller puts in the [signers] array of
    [execute_with_multisig]: addresses, as the signature declares, or
    objects that can sign. *)
Inductive signer : Type :=
| SignerAddress (address : string)
| SignerKeyPair (kpair : SuiKeyPair).

(** [kpair.new_sign_secure(tx_bytes)] on such an element: an address has
    no such method. *)
Definition call_new_sign_secure (s : signer) (tx_bytes : pyval) : outcome pyval :=
  match s with
  | SignerKeyPair kpair => Ret (new_sign_secure kpair tx_bytes)
  | SignerAddress _ => Raise (AttributeError "new_sign_secure")
  end.

(** [[kpair.new_sign_secure(tx_bytes) for kpair in array]]. *)
Fixpoint sign_each (array : list signer) (tx_bytes : pyval)
    : outcome (list pyval) :=
  match array with
  | [] => Ret []
  | kpair :: rest =>
      match call_new_sign_secure kpair tx_bytes with
      | Ret s =>
          match sign_each rest tx_bytes with
          | Ret sigs => Ret (s :: sigs)
          | Raise e => Raise e
          | OutOfFuel => OutOfFuel
          end
      | Raise e => Raise e
      | OutOfFuel => OutOfFuel
      end
  end.

(** [isinstance(v, SuiSignature)]. *)
Definition is_SuiSignature (v : pyval) : bool :=
  match v with
  | PySig _ => true
  | _ => false
  end.

Record SuiConfig : Type := mkConfig {
  active_address : string;
  keypair_for_address : string -> outcome SuiKeyPair
}.

(** A paged collection as the catalogue decodes it. *)
Record Paged : Type := mkPaged {
  data : list pyval;
  next_cursor : option string;
  has_next_page : bool
}.

Definition page_val (p : Paged) : pyval :=
  PyPage (data p) (next_cursor p) (has_next_page p).

(** The handlers of the catalogue builders this module instantiates, at
    the types the catalogue declares for them: a balance, a page of
    coins, a page of objects, a list of objects, and the results of an
    execution and of a dry run.  [faucet_from_dict] is
    [FaucetGasRequest.from_dict], which may raise on a body it cannot
    decode. *)
Record BuilderCatalog : Type := mkCatalog {
  coin_balance_return : json -> Z;
  coins_return : json -> Paged;
  owned_objects_return : json -> Paged;
  multiple_objects_return : json -> list pyval;
  execute_return : json -> pyval;
  dry_run_return : json -> pyval;
  faucet_from_dict : json -> outcome pyval
}.

(** The helpers of [sui_utils] the module imports, taken as given:
    [partition(collection, size)], forced into a list. *)
Record SuiUtils : Type := mkUtils {
  partition : list string -> Z -> outcome (list (list string))
}.

(** [self]: configuration, default request type, the provider's ceiling
    on items per call, the builder catalogue and helpers in scope, and
    the validation inherited from the client mixin, taken as given:
    [_validate_builder] yields the JSON payload to post, or the reason
    for which the client's view of the RPC API refuses the builder. *)
Record SuiClient : Type := mkClient {
  config : SuiConfig;
  request_type : SuiRequestType;
  max_gets : Z;
  catalog : BuilderCatalog;
  _validate_builder : SuiBaseBuilder -> string + json;
  sui_utils : SuiUtils
}.

Definition request_type_name (t : SuiRequestType) : string :=
  match t with
  | WAITFOREFFECTSCERT => "WaitForEffectsCert"
  | WAITFORLOCALEXECUTION => "WaitForLocalExecution"
  end.

(** *** The catalogue builders used by the client *)

(** Modelled from the spec: the builder classes of [sui_builders] that
    this module instantiates.  Each is a request descriptor with its
    method, parameters, cursor and interpretation (section 3); none of
    them carries a transaction to sign, and the execute-transaction
    builder is run through the non-signing path (section 4.1). *)

Definition ExecuteTransaction (self : SuiClient) (tx_bytes : pyval)
    (signatures : list pyval) (rt : SuiRequestType) : SuiBaseBuilder :=
  mkBuilder "sui_executeTransactionBlock" false ""
    [("tx_bytes", tx_bytes); ("signatures", PyList signatures);
     ("request_type", PyStr (request_type_name rt))]
    None (execute_return (catalog self)).

Definition DryRunTransaction (self : SuiClient) (tx_bytes : pyval)
    : SuiBaseBuilder :=
  mkBuilder "sui_dryRunTransactionBlock" false ""
    [("tx_bytes", tx_bytes)] None (dry_run_return (catalog self)).

Definition GetCoinTypeBalance (self : SuiClient) (owner coin_type : string)
    : SuiBaseBuilder :=
  mkBuilder "suix_getBalance" false ""
    [("owner", PyStr owner); ("coin_type", PyStr coin_type)]
    None (fun j => PyBalance (coin_balance_return (catalog self) j)).

Definition GetCoins (self : SuiClient) (owner coin_type : string)
    : SuiBaseBuilder :=
  mkBuilder "suix_getCoins" false ""
    [("owner", PyStr owner); ("coin_type", PyStr coin_type)]
    None (fun j => page_val (coins_return (catalog self) j)).

Definition GetObjectsOwnedByAddress (self : SuiClient) (address : string)
    : SuiBaseBuilder :=
  mkBuilder "suix_getOwnedObjects" false ""
    [("address", PyStr address)] None
    (fun j => page_val (owned_objects_return (catalog self) j)).

Definition GetMultipleObjects (self : SuiClient) (object_ids : list string)
    : SuiBaseBuilder :=
  mkBuilder "sui_multiGetObjects" false ""
    [("object_ids", PyList (map PyStr object_ids))]
    None (fun j => PyList (multiple_objects_return (catalog self) j)).

(* ===================================================================== *)
(** ** Helpers imported by the client module                               *)
(* ===================================================================== *)

(** Modelled from the spec: [handle_result], imported from the package
    root.  Section 7: the payload of a success envelope is handed over,
    and touching the payload of a failure envelope fails loudly. *)
Definition handle_result (from_cmd : SuiRpcResult) : outcome pyval :=
  if is_ok from_cmd then Ret (result_data from_cmd)
  else Raise (ValueError (PyFormat "Error in result: " (result_string from_cmd))).

(** [range(0, stop, step)] for a positive step, counted by [count]. *)
Definition range_starts (count step : nat) : list nat :=
  map (fun i => i * step) (seq 0 count).

(** Number of starts of [range(0, len, size)]. *)
Definition range_count (len size : nat) : nat := (len + size - 1) / size.

(** The consecutive chunks of at most [n] items of a collection: the
    slices [collection[i : i + n]] for [i] over [range(0, len, n)]. *)
Definition chunks_of {A} (collection : list A) (n : nat) : list (list A) :=
  map (fun i => firstn n (skipn i collection))
      (range_starts (range_count (List.length collection) n) n).

(** Resolve addresses to key pairs, in order; the first miss raises. *)
Fixpoint keypairs_for (cfg : SuiConfig) (addresses : list string)
    : outcome (list SuiKeyPair) :=
  match addresses with
  | [] => Ret []
  | addy :: rest =>
      match keypair_for_address cfg addy with
      | Ret kpair =>
          match keypairs_for cfg rest with
          | Ret kpairs => Ret (kpair :: kpairs)
          | Raise e => Raise e
          | OutOfFuel => OutOfFuel
          end
      | Raise e => Raise e
      | OutOfFuel => OutOfFuel
      end
  end.

(** The array of an optional [SuiArray]. *)
Definition array_of {A} (a : option (list A)) : list A :=
  match a with
  | Some l => l
  | None => []
  end.

(** Modelled from the spec: [sign_for_execution] of the client mixin.
    Section 4.1 and 4.2: the builder's authority is resolved to a key
    pair through the client state and signs the byte buffer, additional
    signers follow in the given order, and the execute-transaction
    builder carries the bytes, the signatures and the client's request
    type. *)
Definition sign_for_execution (self : SuiClient) (tx_bytes : pyval)
    (builder : SuiBaseBuilder) (additional_signers : option (list string))
    : outcome SuiBaseBuilder :=
  match keypairs_for (config self)
          (authority builder :: array_of additional_signers) with
  | Ret signers_list =>
      Ret (ExecuteTransaction self tx_bytes
             (map (fun kpair => new_sign_secure kpair tx_bytes) signers_list)
             (request_type self))
  | Raise e => Raise e
  | OutOfFuel => OutOfFuel
  end.

(* ===================================================================== *)
(** ** The execution pipeline                                              *)
(* ===================================================================== *)

(** The arguments of the post are evaluated first: a builder that
    [_validate_builder] refuses raises before anything is sent, and the
    two [except] clauses do not catch that. *)
Definition _execute (self : SuiClient) (builder : SuiBaseBuilder)
    : M SuiRpcResult :=
  match _validate_builder self builder with
  | inl reason => raise (SuiRpcApiError reason)
  | inr payload =>
      result <- post (RpcPost builder) ;;
      match result with
      | Body fields => ret (mkResult true PyNone (PyJson (JObj fields)))
      | BadJson jexc =>
          ret (mkResult false (PyStr ("JSON Decoder Error " ++ msg jexc))
                 (PyJson (json_vars jexc)))
      | HttpxFail hexc =>
          ret (mkResult false (PyStr ("HTTPX error: " ++ class_name hexc))
                 (PyJson (httpx_vars hexc)))
      end
  end.

(** [result.is_ok() and "error" not in result.result_data]. *)
Definition ok_without_error (result : SuiRpcResult) : outcome bool :=
  if is_ok result then
    match contains "error" (result_data result) with
    | Ret b => Ret (negb b)
    | Raise e => Raise e
    | OutOfFuel => OutOfFuel
    end
  else Ret false.

Definition execute_no_sign (self : SuiClient) (builder : SuiBaseBuilder)
    : M SuiRpcResult :=
  if txn_required builder then
    result <- _execute self builder ;;
    if is_ok result then
      let result := result_data result in
      has_error <- lift (contains "error" result) ;;
      if (has_error : bool) then
        error <- lift (getitem "error" result) ;;
        message <- lift (getitem "message" error) ;;
        ret (mkResult false message PyNone)
      else
        res <- lift (getitem "result" result) ;;
        ret (mkResult true PyNone
               (PyPre (authority builder) (handle_return builder (raw res))))
    else ret result
  else
    ret (mkResult false
           (PyStr "execute_no_sign is used only with transaction types") PyNone).

Definition _multi_signed_execution (self : SuiClient) (builder : SuiBaseBuilder)
    (additional_signers : option (list string)) : M SuiRpcResult :=
  result <- execute_no_sign self builder ;;
  if is_ok result then
    tx_bytes <- lift (attr_tx_bytes (result_data result)) ;;
    exec_builder <- lift (sign_for_execution self tx_bytes builder additional_signers) ;;
    result <- _execute self exec_builder ;;
    cond <- lift (ok_without_error result) ;;
    if (cond : bool) then
      res <- lift (getitem "result" (result_data result)) ;;
      ret (mkResult true PyNone (handle_return exec_builder (raw res)))
    else
      error <- lift (getitem "error" (result_data result)) ;;
      ret (mkResult false error PyNone)
  else ret result.

Definition execute (self : SuiClient) (builder : SuiBaseBuilder)
    (additional_signatures : option (list string)) : M SuiRpcResult :=
  if negb (txn_required builder) then
    result <- _execute self builder ;;
    if is_ok result then
      has_error <- lift (contains "error" (result_data result)) ;;
      if (has_error : bool) then
        error <- lift (getitem "error" (result_data result)) ;;
        ret (mkResult false error PyNone)
      else
        res <- lift (getitem "result" (result_data result)) ;;
        ret (mkResult true PyNone (handle_return builder (raw res)))
    else ret result
  else _multi_signed_execution self builder additional_signatures.

Definition execute_with_multisig (self : SuiClient) (builder : SuiBaseBuilder)
    (multi_sig : MultiSig) (pub_keys : list SuiPublicKey)
    (signers : option (list signer)) : M SuiRpcResult :=
  if txn_required builder then
    result <- execute_no_sign self builder ;;
    if is_ok result then
      tx_bytes <- lift (attr_tx_bytes (result_data result)) ;;
      let new_sig := sign multi_sig tx_bytes pub_keys in
      if is_SuiSignature new_sig then
        more <- lift (match signers with
                      | Some array => sign_each array tx_bytes
                      | None => Ret []
                      end) ;;
        let sig_array := ([new_sig] ++ more)%list in
        let exec_tx :=
          ExecuteTransaction self tx_bytes sig_array WAITFORLOCALEXECUTION in
        execute self exec_tx None
      else ret (mkResult false (PyFormat "Signing error code " new_sig) PyNone)
    else ret result
  else _execute self builder.

Definition sign_and_submit (self : SuiClient) (signer : string)
    (tx_bytes : pyval) (additional_signatures : option (list string))
    : M SuiRpcResult :=
  signers_list <- lift (keypairs_for (config self)
                          (signer :: array_of additional_signatures)) ;;
  inner <- lift (attr_tx_bytes tx_bytes) ;;
  let builder :=
    ExecuteTransaction self tx_bytes
      (map (fun kpair => new_sign_secure kpair inner) signers_list)
      (request_type self) in
  result <- _execute self builder ;;
  cond <- lift (ok_without_error result) ;;
  if (cond : bool) then
    res <- lift (getitem "result" (result_data result)) ;;
    ret (mkResult true PyNone (handle_return builder (raw res)))
  else ret result.

Definition dry_run (self : SuiClient) (builder : SuiBaseBuilder)
    : M SuiRpcResult :=
  if txn_required builder then
    result <- execute_no_sign self builder ;;
    if is_ok result then
      tx_bytes <- lift (attr_tx_bytes (result_data result)) ;;
      execute self (DryRunTransaction self tx_bytes) None
    else ret result
  else
    ret (mkResult false (PyStr "dry_run is used only with transaction types")
           PyNone).

(* ===================================================================== *)
(** ** Pagination and the convenience methods                              *)
(* ===================================================================== *)

(** The [while gasses.next_cursor:] loop of [_get_coins_for_type].  Each
    turn of the loop spends one unit of [fuel]. *)
Fixpoint coins_loop (fuel : nat) (self : SuiClient) (builder : SuiBaseBuilder)
    (gasses : pyval) (accumer : list pyval) : M (list pyval) :=
  next <- lift (attr_next_cursor gasses) ;;
  if truthy next then
    match fuel with
    | O => out_of_fuel
    | S fuel' =>
        let builder := set_cursor builder next in
        result <- execute self builder None ;;
        gasses <- lift (handle_result result) ;;
        data <- lift (attr_data gasses) ;;
        coins_loop fuel' self builder gasses (accumer ++ data)
    end
  else ret accumer.

Definition _get_coins_for_type (fuel : nat) (self : SuiClient)
    (address coin_type : string) (fetch_all : bool) : M SuiRpcResult :=
  result <- execute self (GetCoinTypeBalance self address coin_type) None ;;
  if is_ok result then
    limit <- lift (attr_coin_object_count (result_data result)) ;;
    let builder := GetCoins self address coin_type in
    if (limit >? max_gets self)%Z && fetch_all then
      first <- execute self builder None ;;
      gasses <- lift (handle_result first) ;;
      data <- lift (attr_data gasses) ;;
      accumer <- coins_loop fuel self builder gasses ([] ++ data) ;;
      ret (mkResult true (PyStr "") (PyPage accumer None false))
    else execute self builder None
  else ret result.

Definition get_gas (fuel : nat) (self : SuiClient) (address : option string)
    (fetch_all : bool) : M SuiRpcResult :=
  let address :=
    match address with
    | Some a => a
    | None => active_address (config self)
    end in
  _get_coins_for_type fuel self address "0x2::sui::SUI" fetch_all.

Definition get_coin (fuel : nat) (self : SuiClient) (coin_type : string)
    (address : option string) (fetch_all : bool) : M SuiRpcResult :=
  let address :=
    match address with
    | Some a => a
    | None => active_address (config self)
    end in
  _get_coins_for_type fuel self address coin_type fetch_all.

(** [objects.next_cursor and objects.has_next_page]. *)
Definition cursor_and_flag (objects : pyval) : outcome bool :=
  match attr_next_cursor objects with
  | Ret next =>
      if truthy next then attr_has_next_page objects else Ret false
  | Raise e => Raise e
  | OutOfFuel => OutOfFuel
  end.

(** The [while objects.next_cursor and objects.has_next_page:] loop of
    [get_objects]. *)
Fixpoint objects_loop (fuel : nat) (self : SuiClient) (builder : SuiBaseBuilder)
    (objects : pyval) (accumer : list pyval) : M (list pyval) :=
  go_on <- lift (cursor_and_flag objects) ;;
  if (go_on : bool) then
    match fuel with
    | O => out_of_fuel
    | S fuel' =>
        next <- lift (attr_next_cursor objects) ;;
        let builder := set_cursor builder next in
        result <- execute self builder None ;;
        objects <- lift (handle_result result) ;;
        data <- lift (attr_data objects) ;;
        objects_loop fuel' self builder objects (accumer ++ data)
    end
  else ret accumer.

Definition get_objects (fuel : nat) (self : SuiClient) (address : option string)
    (fetch_all : bool) : M SuiRpcResult :=
  let builder :=
    GetObjectsOwnedByAddress self
      match address with
      | Some a => a
      | None => active_address (config self)
      end in
  result <- execute self builder None ;;
  if is_ok result then
    next <- lift (attr_next_cursor (result_data result)) ;;
    if truthy next && fetch_all then
      let objects := result_data result in
      data <- lift (attr_data objects) ;;
      accumer <- objects_loop fuel self builder objects ([] ++ data) ;;
      ret (mkResult true (PyStr "") (PyPage accumer None false))
    else ret result
  else ret result.




(** [result["error"] is None]. *)
Definition is_None (v : pyval) : bool :=
  match v with
  | PyNone | PyJson JNull => true
  | _ => false
  end.

(** The [except] clauses of the faucet request, for what is raised
    inside its [try] after the body has been decoded: a [TypeError] and
    a read timeout become failure envelopes, the rest propagates. *)
Definition faucet_except (o : outcome SuiRpcResult) : outcome SuiRpcResult :=
  match o with
  | Raise TypeError =>
      Ret (mkResult false (PyStr "Type error") (PyJson (JObj [])))
  | Raise (HttpxError ReadTimeout) =>
      Ret (mkResult false (PyStr "HTTP read timeout error")
             (PyJson (httpx_vars ReadTimeout)))
  | other => other
  end.

(** The body of that [try], once the response is a decoded body. *)
Definition faucet_result (self : SuiClient) (fields : list (string * json))
    : outcome SuiRpcResult :=
  match getitem "error" (PyJson (JObj fields)) with
  | Ret error =>
      if is_None error then
        match faucet_from_dict (catalog self) (JObj fields) with
        | Ret receipt => Ret (mkResult true PyNone receipt)
        | Raise e => Raise e
        | OutOfFuel => OutOfFuel
        end
      else Ret (mkResult false error PyNone)
  | Raise e => Raise e
  | OutOfFuel => OutOfFuel
  end.

(** The faucet request.  Of what the transport raises it catches the
    decode error and [httpx.ReadTimeout]; the rest propagates. *)
Definition get_gas_from_faucet (self : SuiClient) (for_address : option string)
    : M SuiRpcResult :=
  let for_address :=
    match for_address with
    | Some a => a
    | None => active_address (config self)
    end in
  result <- post (FaucetPost for_address) ;;
  match result with
  | Body fields => lift (faucet_except (faucet_result self fields))
  | BadJson jexc =>
      ret (mkResult false (PyStr ("JSON Decoder Error " ++ msg jexc))
             (PyJson (json_vars jexc)))
  | HttpxFail ReadTimeout =>
      ret (mkResult false (PyStr "HTTP read timeout error")
             (PyJson (httpx_vars ReadTimeout)))
  | HttpxFail hexc => raise (HttpxError hexc)
  end.

(* ===================================================================== *)
(** ** Vocabulary of the statements                                        *)
(* ===================================================================== *)

(** The client's validation lets the builder through. *)
Definition is_valid (self : SuiClient) (b : SuiBaseBuilder) : bool :=
  match _validate_builder self b with
  | inr _ => true
  | inl _ => false
  end.

(** The world after further posts. *)
Definition sending (w : world) (reqs : list request) : world :=
  mkWorld (remote w) (sent w ++ reqs).

(** The envelope [_execute] makes of a transport response. *)
Definition transport_envelope (r : response) : SuiRpcResult :=
  match r with
  | Body fields => mkResult true PyNone (PyJson (JObj fields))
  | BadJson jexc =>
      mkResult false (PyStr ("JSON Decoder Error " ++ msg jexc))
        (PyJson (json_vars jexc))
  | HttpxFail hexc =>
      mkResult false (PyStr ("HTTPX error: " ++ class_name hexc))
        (PyJson (httpx_vars hexc))
  end.

(** The client's next post of [b] goes out and is answered with a body
    that has no error field and whose result field the builder reads as
    [v]. *)
Definition answers (self : SuiClient) (w : world) (b : SuiBaseBuilder)
    (v : pyval) : Prop :=
  is_valid self b = true /\
  exists fields res,
    remote w (sent w) (RpcPost b) = Body fields /\
    lookup "error" fields = None /\
    lookup "result" fields = Some res /\
    handle_return b res = v.

(** The requests that follow a chain of pages, each carrying the cursor
    of the page before it. *)
Fixpoint cursor_requests (b : SuiBaseBuilder) (c : option string)
    (pages : list Paged) : list request :=
  match pages with
  | [] => []
  | p :: rest => RpcPost (set_cursor b c) :: cursor_requests b (next_cursor p) rest
  end.

(** A paged source: from world [w] on, the remote serves [pages] one
    after the other to the requests that follow the cursors. *)
Fixpoint paged_source (self : SuiClient) (b : SuiBaseBuilder) (w : world)
    (c : option string) (pages : list Paged) : Prop :=
  match pages with
  | [] => True
  | p :: rest =>
      answers self w (set_cursor b c) (page_val p) /\
      paged_source self b (sending w [RpcPost (set_cursor b c)])
        (next_cursor p) rest
  end.

(** The two conditions under which a loop asks for one more page. *)
Definition coins_go_on (p : Paged) : bool := truthy (next_cursor p).

Definition objects_go_on (p : Paged) : bool :=
  truthy (next_cursor p) && has_next_page p.

(** Every page but the last asks for more, and the last does not. *)
Fixpoint stops_at_last (go_on : Paged -> bool) (p : Paged) (rest : list Paged)
    : bool :=
  match rest with
  | [] => negb (go_on p)
  | q :: rest' => go_on p && stops_at_last go_on q rest'
  end.


(** The remote serves the requests for [chunks], one after the other,
    with the object lists [replies]. *)
Fixpoint chunk_replies (self : SuiClient) (w : world)
    (chunks : list (list string)) (replies : list (list pyval)) : Prop :=
  match chunks, replies with
  | [], [] => True
  | chunk :: chunks', items :: replies' =>
      answers self w (GetMultipleObjects self chunk) (PyList items) /\
      chunk_replies self (sending w [RpcPost (GetMultipleObjects self chunk)])
        chunks' replies'
  | _, _ => False
  end.

(* ===================================================================== *)
(** ** A concrete client and some remotes                                  *)
(* ===================================================================== *)

Module Demo.

Definition json_items (j : json) : list pyval :=
  match j with
  | JArr items => map PyJson items
  | _ => []
  end.

Definition page_of_json (j : json) : Paged :=
  match j with
  | JObj f =>
      mkPaged
        (match lookup "data" f with Some d => json_items d | None => [] end)
        (match lookup "nextCursor" f with Some (JStr s) => Some s | _ => None end)
        (match lookup "hasNextPage" f with Some (JBool b) => b | _ => false end)
  | _ => mkPaged [] None false
  end.

Definition balance_of_json (j : json) : Z :=
  match j with
  | JObj f =>
      match lookup "coinObjectCount" f with Some (JNum n) => n | _ => 0%Z end
  | _ => 0%Z
  end.

Definition tx_of_json (j : json) : pyval :=
  match j with
  | JStr s => PyStr s
  | _ => PyNone
  end.

(** A receipt decoder that wants the list of transferred objects. *)
Definition receipt_of_json (j : json) : outcome pyval :=
  match j with
  | JObj f =>
      match lookup "transferredGasObjects" f with
      | Some (JArr _) => Ret (PyFaucet j)
      | Some _ => Raise TypeError
      | None => Raise (KeyError "transferred_gas_objects")
      end
  | _ => Raise TypeError
  end.

Definition catalog : BuilderCatalog :=
  mkCatalog balance_of_json page_of_json page_of_json json_items PyJson PyJson
    receipt_of_json.

(** A key pair that signs by tagging the bytes with its name. *)
Definition key (name : string) : SuiKeyPair :=
  mkKeyPair (fun tx =>
    match tx with
    | PyStr s => PySig (name ++ ":" ++ s)
    | _ => PySig name
    end).

Definition keyring (address : string) : outcome SuiKeyPair :=
  if String.eqb address "0xa" then Ret (key "a")
  else if String.eqb address "0xb" then Ret (key "b")
  else Raise (UnknownAddress address).

(** The methods this client knows of, and its validation: a builder of
    another method is refused by name. *)
Definition rpc_api : list string :=
  ["unsafe_transferSui"; "sui_getObject"; "sui_executeTransactionBlock";
   "sui_dryRunTransactionBlock"; "suix_getBalance"; "suix_getCoins";
   "suix_getOwnedObjects"; "sui_multiGetObjects"].

Definition validate (b : SuiBaseBuilder) : string + json :=
  if existsb (String.eqb (method b)) rpc_api
  then inr (JObj [("jsonrpc", JStr "2.0"); ("id", JNum 1);
                  ("method", JStr (method b))])
  else inl (method b).

(** A helper that cuts a collection into consecutive chunks. *)
Definition slice (collection : list string) (size : Z)
    : outcome (list (list string)) :=
  if (size <=? 0)%Z then Raise (ValueError (PyStr "size must be positive"))
  else Ret (chunks_of collection (Z.to_nat size)).

Definition client : SuiClient :=
  mkClient (mkConfig "0xa" keyring) WAITFORLOCALEXECUTION 2 catalog validate
    (mkUtils slice).

(** The same client made with the other request type. *)
Definition effects_client : SuiClient :=
  mkClient (mkConfig "0xa" keyring) WAITFOREFFECTSCERT 2 catalog validate
    (mkUtils slice).

(** A transaction builder, a plain query, and a query of a method the
    client does not know. *)
Definition transfer : SuiBaseBuilder :=
  mkBuilder "unsafe_transferSui" true "0xa"
    [("recipient", PyStr "0xb"); ("amount", PyJson (JNum 5))] None tx_of_json.

Definition get_object : SuiBaseBuilder :=
  mkBuilder "sui_getObject" false "" [("object_id", PyStr "0x7")] None PyJson.


Definition rpc_body (result : json) : list (string * json) :=
  [("jsonrpc", JStr "2.0"); ("result", result); ("id", JNum 1)].

Definition rpc_error : list (string * json) :=
  [("jsonrpc", JStr "2.0");
   ("error", JObj [("code", JNum (-32000)); ("message", JStr "Invalid signature")]);
   ("id", JNum 1)].

(** The endpoint cannot be reached. *)
Definition offline : world :=
  mkWorld (fun _ _ => HttpxFail ConnectError) [].

(** Every call is answered with a JSON-RPC error. *)
Definition refusing : world :=
  mkWorld (fun _ _ => Body rpc_error) [].

(** A healthy node: bytes for a transaction, effects for an execution. *)
Definition healthy_remote (history : list request) (r : request) : response :=
  match r with
  | RpcPost b =>
      if txn_required b then Body (rpc_body (JStr "AAEC"))
      else Body (rpc_body (JObj [("digest", JStr "D1")]))
  | FaucetPost _ => Body [("error", JNull); ("transferredGasObjects", JArr [])]
  end.

Definition healthy : world := mkWorld healthy_remote [].

(** A faucet whose body has a null error and nothing else. *)
Definition bare_faucet : world :=
  mkWorld (fun _ _ => Body [("error", JNull)]) [].

(** The construct call succeeds, and the body that follows is not JSON. *)
Definition garbled_remote (history : list request) (r : request) : response :=
  match history with
  | [] => Body (rpc_body (JStr "AAEC"))
  | _ => BadJson (mkJSONDecodeError "Expecting value" "<html>" 0 1 1)
  end.

Definition garbled : world := mkWorld garbled_remote [].

Definition page_json (items : list json) (next : json) (more : bool) : json :=
  JObj [("data", JArr items); ("nextCursor", next); ("hasNextPage", JBool more)].

(** A provider that returns a cursor with every page, for ever. *)
Definition endless_remote (history : list request) (r : request) : response :=
  match r with
  | RpcPost b =>
      if String.eqb (method b) "suix_getBalance"
      then Body (rpc_body (JObj [("coinObjectCount", JNum 100)]))
      else Body (rpc_body (page_json [JStr "x"] (JStr "0xc") true))
  | FaucetPost _ => Body rpc_error
  end.

Definition endless : world := mkWorld endless_remote [].

(** A provider with three pages, found by the cursor of the request; the
    second still carries a cursor but says that no page follows. *)
Definition three_pages_remote (history : list request) (r : request) : response :=
  match r with
  | RpcPost b =>
      if String.eqb (method b) "suix_getBalance"
      then Body (rpc_body (JObj [("coinObjectCount", JNum 5)]))
      else
        match cursor b with
        | None => Body (rpc_body (page_json [JStr "o1"; JStr "o2"] (JStr "c1") true))
        | Some "c1" => Body (rpc_body (page_json [JStr "o3"; JStr "o4"] (JStr "c2") false))
        | Some _ => Body (rpc_body (page_json [JStr "o5"] JNull false))
        end
  | FaucetPost _ => Body rpc_error
  end.

Definition three_pages : world := mkWorld three_pages_remote [].

Definition page1 : Paged := mkPaged [PyJson (JStr "o1"); PyJson (JStr "o2")] (Some "c1") true.
Definition page2 : Paged := mkPaged [PyJson (JStr "o3"); PyJson (JStr "o4")] (Some "c2") false.
Definition page3 : Paged := mkPaged [PyJson (JStr "o5")] None false.






(** Multisig objects: one that signs, one that reports an error code. *)
Definition signing_multisig : MultiSig := mkMultiSig (fun _ _ => PySig "agg").
Definition failing_multisig : MultiSig := mkMultiSig (fun _ _ => PyJson (JNum 3)).

End Demo.

(* ===================================================================== *)
(** ** One round trip                                                      *)
(* ===================================================================== *)

Local Open Scope list_scope.

Ltac run := unfold bind, lift, ret, raise, out_of_fuel; simpl.

Lemma has_key_lookup k fields :
  has_key k fields = match lookup k fields with Some _ => true | None => false end.
Proof. reflexivity. Qed.

Lemma sending_nil w : sending w [] = w.
Proof. destruct w; unfold sending; simpl; now rewrite app_nil_r. Qed.

Lemma sending_sending w xs ys :
  sending (sending w xs) ys = sending w (xs ++ ys).
Proof. unfold sending; simpl; now rewrite app_assoc. Qed.

Lemma is_valid_payload self b :
  is_valid self b = true -> exists payload, _validate_builder self b = inr payload.
Proof.
  unfold is_valid. destruct (_validate_builder self b) as [reason|payload];
    [discriminate | now exists payload].
Qed.

Lemma refused_not_valid self b reason :
  _validate_builder self b = inl reason -> is_valid self b = false.
Proof. intros H. unfold is_valid. now rewrite H. Qed.

(** A builder the validation lets through is posted once, and
    [_execute] returns an envelope. *)
Lemma _execute_eq self b w :
  is_valid self b = true ->
  _execute self b w =
  (Ret (transport_envelope (remote w (sent w) (RpcPost b))),
   sending w [RpcPost b]).
Proof.
  intros Hv. destruct (is_valid_payload self b Hv) as [payload Hp].
  unfold _execute. rewrite Hp. unfold post; run.
  destruct (remote w (sent w) (RpcPost b)); reflexivity.
Qed.

(** A builder the validation refuses is not posted. *)
Lemma _execute_refused self b w reason :
  _validate_builder self b = inl reason ->
  _execute self b w = (Raise (SuiRpcApiError reason), w).
Proof. intros H. unfold _execute. now rewrite H. Qed.

(** The non-signing path of [execute], by the response. *)
Lemma execute_plain self b a w :
  txn_required b = false ->
  is_valid self b = true ->
  execute self b a w =
  (match remote w (sent w) (RpcPost b) with
   | Body fields =>
       match lookup "error" fields with
       | Some e => Ret (mkResult false (PyJson e) PyNone)
       | None =>
           match lookup "result" fields with
           | Some res => Ret (mkResult true PyNone (handle_return b res))
           | None => Raise (KeyError "result")
           end
       end
   | other => Ret (transport_envelope other)
   end,
   sending w [RpcPost b]).
Proof.
  intros Hb Hv. unfold execute. rewrite Hb. cbn [negb].
  unfold bind at 1. cbv beta. rewrite _execute_eq by assumption.
  destruct (remote w (sent w) (RpcPost b)) as [fields|j|h]; simpl; try reflexivity.
  run. rewrite has_key_lookup.
  destruct (lookup "error" fields); simpl; try reflexivity.
  destruct (lookup "result" fields); reflexivity.
Qed.

Lemma execute_plain_refused self b a w reason :
  txn_required b = false ->
  _validate_builder self b = inl reason ->
  execute self b a w = (Raise (SuiRpcApiError reason), w).
Proof.
  intros Hb Hr. unfold execute. rewrite Hb. cbn [negb].
  unfold bind at 1. cbv beta. now rewrite (_execute_refused self b w reason Hr).
Qed.

Lemma execute_plain_world self b a w :
  txn_required b = false ->
  is_valid self b = true ->
  snd (execute self b a w) = sending w [RpcPost b].
Proof. intros Hb Hv. now rewrite execute_plain. Qed.

Lemma execute_answers self b a w v :
  txn_required b = false ->
  answers self w b v ->
  execute self b a w = (Ret (mkResult true PyNone v), sending w [RpcPost b]).
Proof.
  intros Hb (Hv & fields & res & Hr & He & Hres & Hh).
  rewrite execute_plain by assumption.
  now rewrite Hr, He, Hres, Hh.
Qed.

(** A success envelope of the non-signing path is an interpreted result. *)
Lemma execute_plain_ok self b a w r w' :
  txn_required b = false ->
  execute self b a w = (Ret r, w') ->
  is_ok r = true ->
  answers self w b (result_data r) /\ r = mkResult true PyNone (result_data r).
Proof.
  intros Hb Hrun Hok.
  destruct (_validate_builder self b) as [reason|payload] eqn:Hp.
  { rewrite (execute_plain_refused self b a w reason Hb Hp) in Hrun.
    discriminate Hrun. }
  assert (Hv : is_valid self b = true) by (unfold is_valid; now rewrite Hp).
  rewrite execute_plain in Hrun by assumption.
  unfold answers.
  destruct (remote w (sent w) (RpcPost b)) as [fields|j|h] eqn:Hr;
    cbv beta iota in Hrun;
    try (inversion Hrun; subst; simpl in Hok; discriminate).
  destruct (lookup "error" fields) eqn:He;
    [inversion Hrun; subst; simpl in Hok; discriminate|].
  destruct (lookup "result" fields) as [res|] eqn:Hres; [|discriminate].
  inversion Hrun; subst; simpl. split; [|reflexivity].
  split; [exact Hv|]. exists fields, res. auto.
Qed.

(** The no-sign round trip of a transaction builder, by the response. *)
Lemma execute_no_sign_txn self b w :
  txn_required b = true ->
  is_valid self b = true ->
  execute_no_sign self b w =
  (match remote w (sent w) (RpcPost b) with
   | Body fields =>
       match lookup "error" fields with
       | Some e =>
           match getitem "message" (PyJson e) with
           | Ret m => Ret (mkResult false m PyNone)
           | Raise x => Raise x
           | OutOfFuel => OutOfFuel
           end
       | None =>
           match lookup "result" fields with
           | Some res =>
               Ret (mkResult true PyNone
                      (PyPre (authority b) (handle_return b res)))
           | None => Raise (KeyError "result")
           end
       end
   | other => Ret (transport_envelope other)
   end,
   sending w [RpcPost b]).
Proof.
  intros Hb Hv. unfold execute_no_sign. rewrite Hb.
  unfold bind at 1. cbv beta. rewrite _execute_eq by assumption.
  destruct (remote w (sent w) (RpcPost b)) as [fields|j|h]; simpl; try reflexivity.
  run. rewrite has_key_lookup.
  destruct (lookup "error" fields) as [e|]; simpl.
  - destruct e as [| | | |items|f]; simpl; try reflexivity.
    destruct (lookup "message" f); reflexivity.
  - destruct (lookup "result" fields); reflexivity.
Qed.

Lemma execute_no_sign_refused self b w reason :
  txn_required b = true ->
  _validate_builder self b = inl reason ->
  execute_no_sign self b w = (Raise (SuiRpcApiError reason), w).
Proof.
  intros Hb Hr. unfold execute_no_sign. rewrite Hb.
  unfold bind at 1. cbv beta. now rewrite (_execute_refused self b w reason Hr).
Qed.

Lemma execute_no_sign_answers self b w v :
  txn_required b = true ->
  answers self w b v ->
  execute_no_sign self b w =
  (Ret (mkResult true PyNone (PyPre (authority b) v)), sending w [RpcPost b]).
Proof.
  intros Hb (Hv & fields & res & Hr & He & Hres & Hh).
  rewrite execute_no_sign_txn by assumption.
  now rewrite Hr, He, Hres, Hh.
Qed.

(** Without a usable answer the no-sign round trip gives no success
    envelope, and it has posted the builder if the builder is valid. *)
Lemma no_sign_failure_is_not_ok self b w :
  txn_required b = true ->
  (forall tx, ~ answers self w b tx) ->
  exists o w',
    execute_no_sign self b w = (o, w') /\
    (forall r, o = Ret r -> is_ok r = false) /\
    (is_valid self b = true -> w' = sending w [RpcPost b]).
Proof.
  intros Hb Hno.
  destruct (_validate_builder self b) as [reason|payload] eqn:Hp.
  { rewrite (execute_no_sign_refused self b w reason Hb Hp).
    do 2 eexists. split; [reflexivity|]. split; [intros r H; discriminate H|].
    intros Hv. rewrite (refused_not_valid self b reason Hp) in Hv. discriminate Hv. }
  assert (Hv : is_valid self b = true) by (unfold is_valid; now rewrite Hp).
  rewrite (execute_no_sign_txn self b w Hb Hv).
  destruct (remote w (sent w) (RpcPost b)) as [fields|j|h] eqn:Hr.
  - destruct (lookup "error" fields) as [e|] eqn:He.
    + destruct (getitem "message" (PyJson e)); do 2 eexists;
        (split; [reflexivity|]); (split; [|reflexivity]);
        intros r H; inversion H; reflexivity.
    + destruct (lookup "result" fields) as [res|] eqn:Hres.
      * exfalso. apply (Hno (handle_return b res)).
        split; [exact Hv|]. exists fields, res. auto.
      * do 2 eexists. split; [reflexivity|]. split; [|reflexivity].
        intros r H; discriminate H.
  - do 2 eexists. split; [reflexivity|]. split; [|reflexivity].
    intros r H; inversion H; reflexivity.
  - do 2 eexists. split; [reflexivity|]. split; [|reflexivity].
    intros r H; inversion H; reflexivity.
Qed.

(** Whether the next post of a builder is answered with a result is
    decided by the validation and the response. *)
Lemma answers_or_not self w b :
  (exists v, answers self w b v) \/ (forall v, ~ answers self w b v).
Proof.
  unfold answers.
  destruct (is_valid self b) eqn:Hv;
    [|right; intros v [H _]; discriminate H].
  destruct (remote w (sent w) (RpcPost b)) as [fields|j|h] eqn:Hr.
  - destruct (lookup "error" fields) as [e|] eqn:He.
    + right. intros v (_ & f & res & H1 & H2 & _). inversion H1; subst. congruence.
    + destruct (lookup "result" fields) as [res|] eqn:Hres.
      * left. exists (handle_return b res). split; [reflexivity|].
        exists fields, res. auto.
      * right. intros v (_ & f & res & H1 & _ & H3 & _). inversion H1; subst.
        congruence.
  - right. intros v (_ & f & res & H1 & _). discriminate H1.
  - right. intros v (_ & f & res & H1 & _). discriminate H1.
Qed.

(* ===================================================================== *)
(** ** Entry points that refuse a builder without a transaction            *)
(* ===================================================================== *)

(** C2.  For a builder that is not transactional, [execute_no_sign] and
    [dry_run] each return the failure envelope that names the entry point
    as reserved to transaction types, and leave the world as it was: no
    request is posted. *)
Theorem non_transactional_rejected self b w :
  txn_required b = false ->
  execute_no_sign self b w =
    (Ret (mkResult false
            (PyStr "execute_no_sign is used only with transaction types")
            PyNone), w) /\
  dry_run self b w =
    (Ret (mkResult false
            (PyStr "dry_run is used only with transaction types")
            PyNone), w).
Proof.
  intros Hb. unfold execute_no_sign, dry_run. rewrite Hb. split; reflexivity.
Qed.

Lemma non_transactional_rejected_witness :
  txn_required Demo.get_object = false /\
  fst (execute_no_sign Demo.client Demo.get_object Demo.healthy) =
    Ret (mkResult false
           (PyStr "execute_no_sign is used only with transaction types") PyNone) /\
  sent (snd (dry_run Demo.client Demo.get_object Demo.healthy)) = [].
Proof.
  assert (H : txn_required Demo.get_object = false) by reflexivity.
  destruct (non_transactional_rejected Demo.client Demo.get_object Demo.healthy H)
    as [H1 H2].
  split; [exact H|]. rewrite H1, H2. split; reflexivity.
Defined.

(* ===================================================================== *)
(** ** Multisig execution                                                  *)
(* ===================================================================== *)

Ltac answer_now :=
  unfold answers; split; [reflexivity|]; do 2 eexists;
  split; [reflexivity|split; [reflexivity|split; reflexivity]].

Ltac source_now :=
  repeat match goal with
         | |- paged_source _ _ _ _ _ => simpl paged_source
         | |- chunk_replies _ _ _ _ => simpl chunk_replies
         | |- answers _ _ _ _ => answer_now
         | |- _ /\ _ => split
         | |- True => exact I
         end.

Lemma execute_with_multisig_signing self b ms pks signers w tx :
  txn_required b = true ->
  answers self w b tx ->
  execute_with_multisig self b ms pks signers w =
  (if is_SuiSignature (sign ms tx pks) then
     match
       match signers with
       | Some array => sign_each array tx
       | None => Ret []
       end
     with
     | Ret more =>
         execute self
           (ExecuteTransaction self tx (sign ms tx pks :: more)
              WAITFORLOCALEXECUTION) None (sending w [RpcPost b])
     | Raise e => (Raise e, sending w [RpcPost b])
     | OutOfFuel => (OutOfFuel, sending w [RpcPost b])
     end
   else
     (Ret (mkResult false (PyFormat "Signing error code " (sign ms tx pks)) PyNone),
      sending w [RpcPost b])).
Proof.
  intros Hb Ha. unfold execute_with_multisig. rewrite Hb.
  unfold bind at 1. cbv beta.
  rewrite (execute_no_sign_answers self b w tx Hb Ha). run.
  destruct (is_SuiSignature (sign ms tx pks)); [|reflexivity].
  destruct signers as [array|]; [|reflexivity].
  destruct (sign_each array tx); reflexivity.
Qed.

(** C9.  When the no-sign round trip has produced the bytes and the
    aggregate signing step reports something that is not a signature,
    [execute_with_multisig] returns (it does not raise) the failure
    envelope [Signing error code ...], and the only request posted is the
    no-sign one: no execute round trip follows. *)
Theorem multisig_signing_error self b ms pks signers w tx :
  txn_required b = true ->
  answers self w b tx ->
  is_SuiSignature (sign ms tx pks) = false ->
  execute_with_multisig self b ms pks signers w =
  (Ret (mkResult false (PyFormat "Signing error code " (sign ms tx pks)) PyNone),
   sending w [RpcPost b]).
Proof.
  intros Hb Ha Hs.
  rewrite (execute_with_multisig_signing self b ms pks signers w tx Hb Ha).
  now rewrite Hs.
Qed.

Lemma demo_transfer_answers :
  answers Demo.client Demo.healthy Demo.transfer (PyStr "AAEC").
Proof. answer_now. Defined.

Lemma multisig_signing_error_witness :
  execute_with_multisig Demo.client Demo.transfer Demo.failing_multisig
    ["pk1"; "pk2"] (Some [SignerKeyPair (Demo.key "b")]) Demo.healthy =
  (Ret (mkResult false (PyFormat "Signing error code " (PyJson (JNum 3))) PyNone),
   mkWorld Demo.healthy_remote [RpcPost Demo.transfer]).
Proof.
  apply (multisig_signing_error Demo.client Demo.transfer Demo.failing_multisig
           ["pk1"; "pk2"] (Some [SignerKeyPair (Demo.key "b")]) Demo.healthy
           (PyStr "AAEC")).
  - reflexivity.
  - exact demo_transfer_answers.
  - reflexivity.
Defined.

(** C8.  [execute_with_multisig] given one aggregate signer and two
    additional signers as the addresses its signature declares: the
    aggregate signature is made, and then the call raises
    [AttributeError] on the first address, which has no
    [new_sign_secure]; only the no-sign request was posted and no
    signature set is submitted.  [sign_and_submit] given the same two
    addresses looks their key pairs up and submits their signatures in
    order. *)
Theorem multisig_address_signers_raise :
  execute_with_multisig Demo.client Demo.transfer Demo.signing_multisig
    ["pk1"; "pk2"] (Some [SignerAddress "0xa"; SignerAddress "0xb"])
    Demo.healthy =
  (Raise (AttributeError "new_sign_secure"),
   mkWorld Demo.healthy_remote [RpcPost Demo.transfer]) /\
  sent (snd (sign_and_submit Demo.client "0xa" (PyTxBytes "AAEC")
               (Some ["0xa"; "0xb"]) Demo.healthy)) =
  [RpcPost (ExecuteTransaction Demo.client (PyTxBytes "AAEC")
              [PySig "a:AAEC"; PySig "a:AAEC"; PySig "b:AAEC"]
              WAITFORLOCALEXECUTION)].
Proof. split; reflexivity. Qed.

(* ===================================================================== *)
(** ** The signing path of [execute]                                       *)
(* ===================================================================== *)

Lemma execute_txn self b a w :
  txn_required b = true ->
  execute self b a w = _multi_signed_execution self b a w.
Proof. intros Hb. unfold execute. now rewrite Hb. Qed.

(** After a successful construct round trip: sign, post the execute
    builder if the validation lets it through, and read its response. *)
Lemma multi_signed_after_construct self b a w tx :
  txn_required b = true ->
  answers self w b tx ->
  _multi_signed_execution self b a w =
  match sign_for_execution self tx b a with
  | Ret exec_b =>
      match _validate_builder self exec_b with
      | inl reason => (Raise (SuiRpcApiError reason), sending w [RpcPost b])
      | inr _ =>
          (match remote w (sent w ++ [RpcPost b]) (RpcPost exec_b) with
           | Body fields =>
               match lookup "error" fields with
               | Some e => Ret (mkResult false (PyJson e) PyNone)
               | None =>
                   match lookup "result" fields with
                   | Some res =>
                       Ret (mkResult true PyNone (handle_return exec_b res))
                   | None => Raise (KeyError "result")
                   end
               end
           | BadJson _ | HttpxFail _ => Raise (KeyError "error")
           end,
           sending w [RpcPost b; RpcPost exec_b])
      end
  | Raise e => (Raise e, sending w [RpcPost b])
  | OutOfFuel => (OutOfFuel, sending w [RpcPost b])
  end.
Proof.
  intros Hb Ha. unfold _multi_signed_execution.
  unfold bind at 1. cbv beta.
  rewrite (execute_no_sign_answers self b w tx Hb Ha). run.
  destruct (sign_for_execution self tx b a) as [exec_b| |]; try reflexivity.
  destruct (_validate_builder self exec_b) as [reason|payload] eqn:Hp.
  { now rewrite (_execute_refused self exec_b _ reason Hp). }
  rewrite _execute_eq by (unfold is_valid; now rewrite Hp).
  rewrite sending_sending. simpl app.
  change (remote (sending w [RpcPost b]) (sent (sending w [RpcPost b]))
            (RpcPost exec_b))
    with (remote w (sent w ++ [RpcPost b]) (RpcPost exec_b)).
  destruct (remote w (sent w ++ [RpcPost b]) (RpcPost exec_b))
    as [fields|j|h]; simpl.
  - rewrite has_key_lookup.
    destruct (lookup "error" fields); simpl; try reflexivity.
    destruct (lookup "result" fields); reflexivity.
  - reflexivity.
  - unfold httpx_vars. destruct (is_HTTPError h); reflexivity.
Qed.

(** Without a usable construct response the signing path ends as the
    no-sign round trip does. *)
Lemma multi_signed_without_construct self b a w :
  txn_required b = true ->
  (forall tx, ~ answers self w b tx) ->
  _multi_signed_execution self b a w = execute_no_sign self b w.
Proof.
  intros Hb Hno.
  destruct (no_sign_failure_is_not_ok self b w Hb Hno) as (o & w' & Hrun & Hfail & _).
  unfold _multi_signed_execution. unfold bind at 1. rewrite Hrun.
  destruct o as [r| |]; try reflexivity.
  now rewrite (Hfail r eq_refl).
Qed.

(** C1, as the code has it.  A transactional builder that the client's
    validation refuses is not posted: [execute] raises the validation's
    exception.  One that is let through is posted first, and at most one
    more request follows it, the execute-transaction builder made by
    signing.  There are exactly two round trips when the construct
    response is usable, signing succeeds and the execute builder is let
    through.  When the construct response is not usable there is one,
    and the call ends as [execute_no_sign] does on that response, with
    its failure envelope or its exception.  A success envelope always
    wraps the second response read by the execute-transaction builder,
    never the first one. *)
Theorem execute_transactional_round_trips self b a w :
  txn_required b = true ->
  (forall reason,
      _validate_builder self b = inl reason ->
      execute self b a w = (Raise (SuiRpcApiError reason), w)) /\
  (is_valid self b = true ->
   (exists rest,
       sent (snd (execute self b a w)) = sent w ++ RpcPost b :: rest /\
       (rest = [] \/
        exists tx exec_b,
          answers self w b tx /\ sign_for_execution self tx b a = Ret exec_b /\
          rest = [RpcPost exec_b])) /\
   ((forall tx, ~ answers self w b tx) ->
    execute self b a w = execute_no_sign self b w /\
    sent (snd (execute self b a w)) = sent w ++ [RpcPost b] /\
    (forall r, fst (execute self b a w) = Ret r -> is_ok r = false))) /\
  (forall tx exec_b,
      answers self w b tx -> sign_for_execution self tx b a = Ret exec_b ->
      is_valid self exec_b = true ->
      sent (snd (execute self b a w)) = sent w ++ [RpcPost b; RpcPost exec_b] /\
      (forall v, answers self (sending w [RpcPost b]) exec_b v ->
                 fst (execute self b a w) = Ret (mkResult true PyNone v))) /\
  (forall r,
      fst (execute self b a w) = Ret r -> is_ok r = true ->
      exists tx exec_b,
        answers self w b tx /\ sign_for_execution self tx b a = Ret exec_b /\
        answers self (sending w [RpcPost b]) exec_b (result_data r)).
Proof.
  intros Hb. rewrite (execute_txn self b a w Hb).
  assert (Hone : (forall tx, ~ answers self w b tx) ->
                 _multi_signed_execution self b a w = execute_no_sign self b w /\
                 (is_valid self b = true ->
                  sent (snd (_multi_signed_execution self b a w)) =
                    sent w ++ [RpcPost b]) /\
                 (forall r, fst (_multi_signed_execution self b a w) = Ret r ->
                            is_ok r = false)).
  { intros Hno.
    rewrite (multi_signed_without_construct self b a w Hb Hno).
    destruct (no_sign_failure_is_not_ok self b w Hb Hno)
      as (o & w' & Hrun & Hfail & Hw).
    rewrite Hrun. split; [reflexivity|]. split.
    - intros Hv. now rewrite (Hw Hv).
    - exact Hfail. }
  split; [|split; [|split]].
  - intros reason Hr. unfold _multi_signed_execution. unfold bind at 1.
    now rewrite (execute_no_sign_refused self b w reason Hb Hr).
  - intros Hv. split.
    + destruct (answers_or_not self w b) as [[tx Ha]|Hno].
      * pose proof (multi_signed_after_construct self b a w tx Hb Ha) as Hrun.
        destruct (sign_for_execution self tx b a) as [exec_b| |] eqn:Hs.
        -- destruct (_validate_builder self exec_b) as [reason|payload].
           ++ exists []. rewrite Hrun. split; [reflexivity|now left].
           ++ exists [RpcPost exec_b]. split; [now rewrite Hrun|].
              right. exists tx, exec_b. auto.
        -- exists []. rewrite Hrun. split; [reflexivity|now left].
        -- exists []. rewrite Hrun. split; [reflexivity|now left].
      * exists []. split; [|now left].
        destruct (Hone Hno) as (_ & Hsent & _). exact (Hsent Hv).
    + intros Hno. destruct (Hone Hno) as (H1 & H2 & H3). auto.
  - intros tx exec_b Ha Hs Hve.
    destruct (is_valid_payload self exec_b Hve) as [payload Hp].
    rewrite (multi_signed_after_construct self b a w tx Hb Ha), Hs, Hp.
    split; [reflexivity|].
    intros v (_ & fields & res & Hr & He & Hres & Hh).
    cbv beta iota zeta delta [fst].
    change (remote (sending w [RpcPost b]) (sent (sending w [RpcPost b]))
              (RpcPost exec_b))
      with (remote w (sent w ++ [RpcPost b]) (RpcPost exec_b)) in Hr.
    now rewrite Hr, He, Hres, Hh.
  - intros r Hr Hok.
    destruct (answers_or_not self w b) as [[tx Ha]|Hno].
    + rewrite (multi_signed_after_construct self b a w tx Hb Ha) in Hr.
      destruct (sign_for_execution self tx b a) as [exec_b| |] eqn:Hs;
        try discriminate Hr.
      destruct (_validate_builder self exec_b) as [reason|payload] eqn:Hp;
        [discriminate Hr|].
      exists tx, exec_b. split; [exact Ha|]. split; [exact Hs|].
      cbv beta iota zeta delta [fst] in Hr. unfold answers.
      split; [unfold is_valid; now rewrite Hp|].
      change (remote (sending w [RpcPost b]) (sent (sending w [RpcPost b]))
                (RpcPost exec_b))
        with (remote w (sent w ++ [RpcPost b]) (RpcPost exec_b)).
      destruct (remote w (sent w ++ [RpcPost b]) (RpcPost exec_b))
        as [fields|j|h]; try discriminate Hr.
      destruct (lookup "error" fields) eqn:He.
      * inversion Hr; subst. discriminate Hok.
      * destruct (lookup "result" fields) as [res|] eqn:Hres; [|discriminate Hr].
        inversion Hr; subst. exists fields, res. auto.
    + destruct (Hone Hno) as (_ & _ & Hfail).
      rewrite (Hfail r Hr) in Hok. discriminate Hok.
Qed.

Lemma execute_transactional_round_trips_witness :
  txn_required Demo.transfer = true /\
  sent (snd (execute Demo.client Demo.transfer None Demo.healthy)) =
    [RpcPost Demo.transfer;
     RpcPost (ExecuteTransaction Demo.client (PyStr "AAEC") [PySig "a:AAEC"]
                WAITFORLOCALEXECUTION)] /\
  fst (execute Demo.client Demo.transfer None Demo.healthy) =
    Ret (mkResult true PyNone (PyJson (JObj [("digest", JStr "D1")]))) /\
  execute Demo.client Demo.transfer None Demo.refusing =
    (Ret (mkResult false (PyJson (JStr "Invalid signature")) PyNone),
     mkWorld (remote Demo.refusing) [RpcPost Demo.transfer]).
Proof.
  split; [reflexivity|].
  destruct (execute_transactional_round_trips Demo.client Demo.transfer None
              Demo.healthy eq_refl) as (_ & _ & H & _).
  destruct (H (PyStr "AAEC")
              (ExecuteTransaction Demo.client (PyStr "AAEC") [PySig "a:AAEC"]
                 WAITFORLOCALEXECUTION)
              demo_transfer_answers eq_refl eq_refl) as [Hsent Hres].
  split; [exact Hsent|]. split.
  - apply Hres. answer_now.
  - destruct (execute_transactional_round_trips Demo.client Demo.transfer None
                Demo.refusing eq_refl) as (_ & Hone & _).
    destruct (Hone eq_refl) as [_ Hfail].
    assert (Hno : forall tx, ~ answers Demo.client Demo.refusing Demo.transfer tx).
    { intros tx (_ & fields & res & H1 & H2 & _).
      inversion H1; subst fields. discriminate H2. }
    destruct (Hfail Hno) as [Hrun _]. rewrite Hrun. reflexivity.
Defined.

(** Against C1 as stated: with the endpoint out of reach, [execute] on a
    transactional builder makes one round trip, not two. *)
Lemma execute_transactional_single_round_trip :
  txn_required Demo.transfer = true /\
  sent (snd (execute Demo.client Demo.transfer None Demo.offline)) =
    [RpcPost Demo.transfer].
Proof. split; reflexivity. Qed.

(* ===================================================================== *)
(** ** Where an error response or a transport failure is mishandled        *)
(* ===================================================================== *)

(** C3.  [sign_and_submit] on a node that answers with a JSON-RPC error:
    the envelope returned has its success flag set and wraps the raw
    body, error field included, while [execute] on the same builder and
    node returns the failure envelope that carries the error. *)
Theorem sign_and_submit_error_reported_as_success :
  let exec_tx :=
    ExecuteTransaction Demo.client (PyTxBytes "AAEC") [PySig "a:AAEC"]
      WAITFORLOCALEXECUTION in
  sign_and_submit Demo.client "0xa" (PyTxBytes "AAEC") None Demo.refusing =
    (Ret (mkResult true PyNone (PyJson (JObj Demo.rpc_error))),
     mkWorld (remote Demo.refusing) [RpcPost exec_tx]) /\
  execute Demo.client exec_tx None Demo.refusing =
    (Ret (mkResult false
            (PyJson (JObj [("code", JNum (-32000));
                           ("message", JStr "Invalid signature")]))
            PyNone),
     mkWorld (remote Demo.refusing) [RpcPost exec_tx]).
Proof. split; reflexivity. Qed.

(** C4.  A connection error during the faucet request is not caught and
    leaves [get_gas_from_faucet] as an exception; and on the signing path
    of [execute] a body that is not JSON in the second round trip ends in
    a [KeyError], raised while the failure envelope is being read. *)
Theorem transport_failure_escapes :
  get_gas_from_faucet Demo.client None Demo.offline =
    (Raise (HttpxError ConnectError),
     mkWorld (remote Demo.offline) [FaucetPost "0xa"]) /\
  fst (execute Demo.client Demo.transfer None Demo.garbled) =
    Raise (KeyError "error").
Proof. split; reflexivity. Qed.

(* ===================================================================== *)
(** ** Pagination: one page, one step                                      *)
(* ===================================================================== *)

Lemma andb_false_right (b : bool) : b && false = false.
Proof. now destruct b. Qed.

(** The non-signing path posts its builder, or nothing if the
    validation refuses it. *)
Lemma execute_plain_sent self b a w :
  txn_required b = false ->
  snd (execute self b a w) = w \/
  snd (execute self b a w) = sending w [RpcPost b].
Proof.
  intros Hb. destruct (_validate_builder self b) as [reason|payload] eqn:Hp.
  - left. now rewrite (execute_plain_refused self b a w reason Hb Hp).
  - right. apply execute_plain_world; [exact Hb|].
    unfold is_valid. now rewrite Hp.
Qed.

(** C7.  With [fetch_all] false no request carries a cursor: coin
    listing asks for the balance and then, if that succeeded, for the
    first page only, whose envelope it returns; object listing asks for
    the first page only and returns its envelope.  A request that the
    validation refuses is not sent; with the requests let through, the
    balance request is always posted and the first page of objects is
    always asked for.  The fuel plays no part. *)
Theorem fetch_all_false_first_page fuel self address coin_type owner w :
  let balance := GetCoinTypeBalance self address coin_type in
  let coins := GetCoins self address coin_type in
  let objects :=
    GetObjectsOwnedByAddress self
      match owner with
      | Some a => a
      | None => active_address (config self)
      end in
  _get_coins_for_type fuel self address coin_type false w =
    match execute self balance None w with
    | (Ret r, w1) => if is_ok r then execute self coins None w1 else (Ret r, w1)
    | (Raise e, w1) => (Raise e, w1)
    | (OutOfFuel, w1) => (OutOfFuel, w1)
    end /\
  (sent (snd (_get_coins_for_type fuel self address coin_type false w)) =
     sent w \/
   sent (snd (_get_coins_for_type fuel self address coin_type false w)) =
     sent w ++ [RpcPost balance] \/
   sent (snd (_get_coins_for_type fuel self address coin_type false w)) =
     sent w ++ [RpcPost balance; RpcPost coins]) /\
  (is_valid self balance = true ->
   sent (snd (_get_coins_for_type fuel self address coin_type false w)) =
     sent w ++ [RpcPost balance] \/
   sent (snd (_get_coins_for_type fuel self address coin_type false w)) =
     sent w ++ [RpcPost balance; RpcPost coins]) /\
  cursor coins = None /\
  get_objects fuel self owner false w = execute self objects None w /\
  (sent (snd (get_objects fuel self owner false w)) = sent w \/
   sent (snd (get_objects fuel self owner false w)) =
     sent w ++ [RpcPost objects]) /\
  (is_valid self objects = true ->
   sent (snd (get_objects fuel self owner false w)) =
     sent w ++ [RpcPost objects]) /\
  cursor objects = None.
Proof.
  intros balance coins objects.
  assert (Hcoins :
    _get_coins_for_type fuel self address coin_type false w =
    match execute self balance None w with
    | (Ret r, w1) => if is_ok r then execute self coins None w1 else (Ret r, w1)
    | (Raise e, w1) => (Raise e, w1)
    | (OutOfFuel, w1) => (OutOfFuel, w1)
    end).
  { unfold _get_coins_for_type. unfold bind at 1. cbv beta.
    fold balance. fold coins.
    destruct (execute self balance None w) as [[r| |] w1] eqn:E; try reflexivity.
    destruct (is_ok r) eqn:Hok; [|reflexivity].
    destruct (execute_plain_ok self balance None w r w1 eq_refl E Hok)
      as [(_ & fields & res & _ & _ & _ & Hv) _].
    rewrite <- Hv. run. now rewrite andb_false_right. }
  assert (Hobjects :
    get_objects fuel self owner false w = execute self objects None w).
  { unfold get_objects. fold objects. unfold bind at 1. cbv beta.
    destruct (execute self objects None w) as [[r| |] w1] eqn:E; try reflexivity.
    destruct (is_ok r) eqn:Hok; [|reflexivity].
    destruct (execute_plain_ok self objects None w r w1 eq_refl E Hok)
      as [(_ & fields & res & _ & _ & _ & Hv) _].
    rewrite <- Hv. run. now rewrite andb_false_right. }
  assert (Hposted :
    is_valid self balance = true ->
    sent (snd (_get_coins_for_type fuel self address coin_type false w)) =
      sent w ++ [RpcPost balance] \/
    sent (snd (_get_coins_for_type fuel self address coin_type false w)) =
      sent w ++ [RpcPost balance; RpcPost coins]).
  { intros Hv. rewrite Hcoins.
    pose proof (execute_plain_world self balance None w eq_refl Hv) as Hw.
    destruct (execute self balance None w) as [[r| |] w1]; simpl in Hw; subst w1;
      try (left; reflexivity).
    destruct (is_ok r); [|left; reflexivity].
    destruct (execute_plain_sent self coins None
                (sending w [RpcPost balance]) eq_refl) as [Hw1|Hw1];
      rewrite Hw1; [left; reflexivity|right].
    simpl. now rewrite <- app_assoc. }
  split; [exact Hcoins|]. split; [|split; [exact Hposted|split; [reflexivity|]]].
  - destruct (_validate_builder self balance) as [reason|payload] eqn:Hp.
    { left. rewrite Hcoins.
      now rewrite (execute_plain_refused self balance None w reason eq_refl Hp). }
    right. apply Hposted. unfold is_valid. now rewrite Hp.
  - split; [exact Hobjects|]. split; [|split; [|reflexivity]].
    + rewrite Hobjects.
      destruct (execute_plain_sent self objects None w eq_refl) as [Hw|Hw];
        rewrite Hw; [left|right]; reflexivity.
    + intros Hv. rewrite Hobjects.
      now rewrite (execute_plain_world self objects None w eq_refl Hv).
Qed.

Lemma coins_loop_stop fuel self b d c h acc w :
  truthy c = false ->
  coins_loop fuel self b (PyPage d c h) acc w = (Ret acc, w).
Proof. intros Hc. destruct fuel; simpl; run; now rewrite Hc. Qed.

Lemma coins_loop_step fuel self b d c h acc w d' c' h' :
  txn_required b = false ->
  truthy c = true ->
  answers self w (set_cursor b c) (PyPage d' c' h') ->
  coins_loop (S fuel) self b (PyPage d c h) acc w =
  coins_loop fuel self (set_cursor b c) (PyPage d' c' h') (acc ++ d')
    (sending w [RpcPost (set_cursor b c)]).
Proof.
  intros Hb Hc Ha.
  cbn [coins_loop]. unfold bind at 1, lift at 1. cbn [attr_next_cursor].
  rewrite Hc. unfold bind at 1.
  rewrite (execute_answers self (set_cursor b c) None w _ Hb Ha).
  reflexivity.
Qed.

Lemma objects_loop_stop fuel self b d c h acc w :
  truthy c && h = false ->
  objects_loop fuel self b (PyPage d c h) acc w = (Ret acc, w).
Proof.
  intros Hc. destruct fuel; simpl; run; unfold cursor_and_flag; simpl;
    destruct (truthy c); simpl in *; try rewrite Hc; reflexivity.
Qed.

Lemma objects_loop_step fuel self b d c h acc w d' c' h' :
  txn_required b = false ->
  truthy c && h = true ->
  answers self w (set_cursor b c) (PyPage d' c' h') ->
  objects_loop (S fuel) self b (PyPage d c h) acc w =
  objects_loop fuel self (set_cursor b c) (PyPage d' c' h') (acc ++ d')
    (sending w [RpcPost (set_cursor b c)]).
Proof.
  intros Hb Hc Ha. apply andb_prop in Hc. destruct Hc as [Hc Hh].
  cbn [objects_loop]. unfold bind at 1, lift at 1.
  unfold cursor_and_flag. cbn [attr_next_cursor attr_has_next_page].
  rewrite Hc, Hh. unfold bind at 1, lift at 1. unfold bind at 1.
  rewrite (execute_answers self (set_cursor b c) None w _ Hb Ha).
  reflexivity.
Qed.

(** Computations only add to the requests sent. *)
Lemma bind_extends {A B} (c : M A) (k : A -> M B) w :
  (exists r1, sent (snd (c w)) = sent w ++ r1) ->
  (forall a w', exists r2, sent (snd (k a w')) = sent w' ++ r2) ->
  exists r, sent (snd (bind c k w)) = sent w ++ r.
Proof.
  intros [r1 H1] Hk. unfold bind.
  destruct (c w) as [[a| |] w']; simpl in H1; try (exists r1; exact H1).
  destruct (Hk a w') as [r2 H2]. exists (r1 ++ r2).
  now rewrite H2, H1, app_assoc.
Qed.

Lemma lift_extends {A} (o : outcome A) w :
  exists r, sent (snd (lift o w)) = sent w ++ r.
Proof. exists []. simpl. now rewrite app_nil_r. Qed.

Lemma execute_plain_extends self b a w :
  txn_required b = false ->
  exists r, sent (snd (execute self b a w)) = sent w ++ r.
Proof.
  intros Hb. destruct (execute_plain_sent self b a w Hb) as [H|H]; rewrite H.
  - exists []. now rewrite app_nil_r.
  - now exists [RpcPost b].
Qed.

Lemma coins_loop_extends self fuel :
  forall b g acc w,
    txn_required b = false ->
    exists r, sent (snd (coins_loop fuel self b g acc w)) = sent w ++ r.
Proof.
  induction fuel as [|fuel IH]; intros b g acc w Hb; cbn [coins_loop];
    (apply bind_extends; [apply lift_extends|]); intros next w1;
    (destruct (truthy next);
     [|exists []; simpl; now rewrite app_nil_r]).
  - exists []. simpl. now rewrite app_nil_r.
  - apply bind_extends; [now apply execute_plain_extends|]. intros r w2.
    apply bind_extends; [apply lift_extends|]. intros g' w3.
    apply bind_extends; [apply lift_extends|]. intros d' w4.
    now apply IH.
Qed.

(** A turn of the coin loop posts the request that carries the cursor,
    whatever comes back. *)
Lemma coins_loop_posts fuel self b d c h acc w :
  txn_required b = false ->
  truthy c = true ->
  is_valid self (set_cursor b c) = true ->
  exists rest,
    sent (snd (coins_loop (S fuel) self b (PyPage d c h) acc w)) =
    sent w ++ RpcPost (set_cursor b c) :: rest.
Proof.
  intros Hb Hc Hv.
  cbn [coins_loop]. unfold bind at 1, lift at 1. cbn [attr_next_cursor].
  rewrite Hc. unfold bind at 1.
  pose proof (execute_plain_world self (set_cursor b c) None w Hb Hv) as Hw.
  destruct (execute self (set_cursor b c) None w) as [[r| |] w1];
    simpl in Hw; subst w1; try (exists []; reflexivity).
  assert (Hk : exists r2,
    sent (snd ((gasses <- lift (handle_result r);;
                data0 <- lift (attr_data gasses);;
                coins_loop fuel self (set_cursor b c) gasses (acc ++ data0))
               (sending w [RpcPost (set_cursor b c)]))) =
    sent (sending w [RpcPost (set_cursor b c)]) ++ r2).
  { apply bind_extends; [apply lift_extends|]. intros g' w3.
    apply bind_extends; [apply lift_extends|]. intros d' w4.
    now apply coins_loop_extends. }
  destruct Hk as [r2 H2]. exists r2. rewrite H2. simpl.
  now rewrite <- app_assoc.
Qed.

(** C5.  The two loops test different things after each page.  Coin
    listing looks at the cursor alone: without one it returns what it
    has, with one it asks for the next page, whatever [has_next_page]
    says.  Object listing asks for the next page only when there is a
    cursor and [has_next_page] is true.  So a page with a cursor and
    [has_next_page] false ends object listing on the spot, with no
    further request, where coin listing goes on and posts the request
    for the next page. *)
Theorem pagination_stopping_conditions fuel self b d c h acc w :
  txn_required b = false ->
  (truthy c = false ->
     coins_loop fuel self b (PyPage d c h) acc w = (Ret acc, w)) /\
  (truthy c = true ->
     forall d' c' h',
       answers self w (set_cursor b c) (PyPage d' c' h') ->
       coins_loop (S fuel) self b (PyPage d c h) acc w =
       coins_loop fuel self (set_cursor b c) (PyPage d' c' h') (acc ++ d')
         (sending w [RpcPost (set_cursor b c)])) /\
  (truthy c && h = false ->
     objects_loop fuel self b (PyPage d c h) acc w = (Ret acc, w)) /\
  (truthy c && h = true ->
     forall d' c' h',
       answers self w (set_cursor b c) (PyPage d' c' h') ->
       objects_loop (S fuel) self b (PyPage d c h) acc w =
       objects_loop fuel self (set_cursor b c) (PyPage d' c' h') (acc ++ d')
         (sending w [RpcPost (set_cursor b c)])) /\
  (truthy c = true -> h = false ->
     objects_loop fuel self b (PyPage d c h) acc w = (Ret acc, w) /\
     (is_valid self (set_cursor b c) = true ->
      exists rest,
        sent (snd (coins_loop (S fuel) self b (PyPage d c h) acc w)) =
        sent w ++ RpcPost (set_cursor b c) :: rest)).
Proof.
  intros Hb. repeat split.
  - now apply coins_loop_stop.
  - intros Hc d' c' h' Ha. now apply coins_loop_step.
  - now apply objects_loop_stop.
  - intros Hc d' c' h' Ha. now apply objects_loop_step.
  - apply objects_loop_stop. subst h. apply andb_false_right.
  - intros Hv. now apply coins_loop_posts.
Qed.

Lemma pagination_stopping_conditions_witness :
  let b := GetObjectsOwnedByAddress Demo.client "0xa" in
  let page := PyPage [PyJson (JStr "o3")] (Some "c2") false in
  objects_loop 5 Demo.client b page [] Demo.three_pages = (Ret [], Demo.three_pages) /\
  exists rest,
    sent (snd (coins_loop 5 Demo.client b page [] Demo.three_pages)) =
    sent Demo.three_pages ++ RpcPost (set_cursor b (Some "c2")) :: rest.
Proof.
  intros b page.
  destruct (pagination_stopping_conditions 4 Demo.client b
              [PyJson (JStr "o3")] (Some "c2") false [] Demo.three_pages eq_refl)
    as (_ & _ & _ & _ & Hboth).
  destruct (pagination_stopping_conditions 5 Demo.client b
              [PyJson (JStr "o3")] (Some "c2") false [] Demo.three_pages eq_refl)
    as (_ & _ & Hstop & _).
  split.
  - exact (Hstop eq_refl).
  - exact (proj2 (Hboth eq_refl eq_refl) eq_refl).
Defined.

(* ===================================================================== *)
(** ** Pagination: whole runs                                              *)
(* ===================================================================== *)

(** The coin loop over a paged source: it follows the cursors to the
    first page without one. *)
Lemma coins_loop_run self b :
  txn_required b = false ->
  forall pages p0 c0 acc w fuel,
    stops_at_last coins_go_on p0 pages = true ->
    paged_source self b w (next_cursor p0) pages ->
    List.length pages <= fuel ->
    coins_loop fuel self (set_cursor b c0) (page_val p0) acc w =
    (Ret (acc ++ List.concat (map data pages)),
     sending w (cursor_requests b (next_cursor p0) pages)).
Proof.
  intros Hb. induction pages as [|p rest IH]; intros p0 c0 acc w fuel Hstop Hsrc Hfuel.
  - simpl in Hstop. unfold coins_go_on in Hstop.
    apply negb_true_iff in Hstop.
    unfold page_val. rewrite coins_loop_stop by assumption.
    simpl. now rewrite app_nil_r, sending_nil.
  - simpl in Hstop. apply andb_prop in Hstop. destruct Hstop as [Hgo Hstop].
    destruct Hsrc as [Ha Hsrc].
    destruct fuel as [|fuel]; [simpl in Hfuel; lia|].
    unfold page_val at 1.
    rewrite (coins_loop_step fuel self (set_cursor b c0) (data p0) (next_cursor p0)
               (has_next_page p0) acc w (data p) (next_cursor p) (has_next_page p)
               Hb Hgo Ha).
    change (set_cursor (set_cursor b c0) (next_cursor p0))
      with (set_cursor b (next_cursor p0)).
    change (PyPage (data p) (next_cursor p) (has_next_page p)) with (page_val p).
    rewrite (IH p (next_cursor p0) (acc ++ data p) _ fuel Hstop Hsrc)
      by (simpl in Hfuel; lia).
    simpl. now rewrite sending_sending, <- app_assoc.
Qed.

(** The object loop over a paged source: it follows the cursors to the
    first page without a cursor or with [has_next_page] false. *)
Lemma objects_loop_run self b :
  txn_required b = false ->
  forall pages p0 c0 acc w fuel,
    stops_at_last objects_go_on p0 pages = true ->
    paged_source self b w (next_cursor p0) pages ->
    List.length pages <= fuel ->
    objects_loop fuel self (set_cursor b c0) (page_val p0) acc w =
    (Ret (acc ++ List.concat (map data pages)),
     sending w (cursor_requests b (next_cursor p0) pages)).
Proof.
  intros Hb. induction pages as [|p rest IH]; intros p0 c0 acc w fuel Hstop Hsrc Hfuel.
  - simpl in Hstop. unfold objects_go_on in Hstop.
    apply negb_true_iff in Hstop.
    unfold page_val. rewrite objects_loop_stop by assumption.
    simpl. now rewrite app_nil_r, sending_nil.
  - simpl in Hstop. apply andb_prop in Hstop. destruct Hstop as [Hgo Hstop].
    destruct Hsrc as [Ha Hsrc].
    destruct fuel as [|fuel]; [simpl in Hfuel; lia|].
    unfold page_val at 1.
    rewrite (objects_loop_step fuel self (set_cursor b c0) (data p0)
               (next_cursor p0) (has_next_page p0) acc w
               (data p) (next_cursor p) (has_next_page p) Hb Hgo Ha).
    change (set_cursor (set_cursor b c0) (next_cursor p0))
      with (set_cursor b (next_cursor p0)).
    change (PyPage (data p) (next_cursor p) (has_next_page p)) with (page_val p).
    rewrite (IH p (next_cursor p0) (acc ++ data p) _ fuel Hstop Hsrc)
      by (simpl in Hfuel; lia).
    simpl. now rewrite sending_sending, <- app_assoc.
Qed.

(** C6, as the code has it.  Over a paged source of [N] pages, of which
    the last is the first to tell the loop to stop, each accumulation
    takes [N - 1] turns of its loop: with that much fuel or more it
    returns the items of all [N] pages in order, after one request per
    page.  Nothing but the provider's answer ends the loop; there is no
    ceiling on the number of pages. *)
Theorem pagination_terminates_with_source self fuel address coin_type owner
    n p1 pages w :
  let balance := GetCoinTypeBalance self address coin_type in
  let coins := GetCoins self address coin_type in
  let objects :=
    GetObjectsOwnedByAddress self
      match owner with
      | Some a => a
      | None => active_address (config self)
      end in
  List.length pages <= fuel ->
  (answers self w balance (PyBalance n) ->
   (n > max_gets self)%Z ->
   paged_source self coins (sending w [RpcPost balance]) None (p1 :: pages) ->
   stops_at_last coins_go_on p1 pages = true ->
   _get_coins_for_type fuel self address coin_type true w =
     (Ret (mkResult true (PyStr "")
             (PyPage (List.concat (map data (p1 :: pages))) None false)),
      sending w (RpcPost balance :: cursor_requests coins None (p1 :: pages)))) /\
  (paged_source self objects w None (p1 :: pages) ->
   truthy (next_cursor p1) = true ->
   stops_at_last objects_go_on p1 pages = true ->
   get_objects fuel self owner true w =
     (Ret (mkResult true (PyStr "")
             (PyPage (List.concat (map data (p1 :: pages))) None false)),
      sending w (cursor_requests objects None (p1 :: pages)))).
Proof.
  intros balance coins objects Hfuel. split.
  - intros Hbal Hn [Ha Hsrc] Hstop.
    unfold _get_coins_for_type. fold balance. fold coins.
    unfold bind at 1.
    rewrite (execute_answers self balance None w _ eq_refl Hbal).
    cbn [is_ok result_status result_data].
    unfold bind at 1, lift at 1. cbn [attr_coin_object_count].
    apply Z.gt_lt, Z.gtb_lt in Hn. rewrite Hn. cbn [andb].
    unfold bind at 1.
    change coins with (set_cursor coins None) at 1.
    rewrite (execute_answers self (set_cursor coins None) None _ _ eq_refl Ha).
    unfold bind at 1, lift at 1. cbn [handle_result is_ok result_status result_data].
    unfold bind at 1, lift at 1. unfold page_val at 1. cbn [attr_data].
    unfold bind at 1.
    change coins with (set_cursor coins None) at 1.
    change (PyPage (data p1) (next_cursor p1) (has_next_page p1)) with (page_val p1).
    rewrite (coins_loop_run self coins eq_refl pages p1 None _ _ fuel Hstop Hsrc Hfuel).
    unfold ret. rewrite !sending_sending. reflexivity.
  - intros [Ha Hsrc] Hc Hstop.
    unfold get_objects. fold objects.
    unfold bind at 1.
    change objects with (set_cursor objects None) at 1.
    rewrite (execute_answers self (set_cursor objects None) None _ _ eq_refl Ha).
    cbn [is_ok result_status result_data].
    unfold bind at 1, lift at 1. unfold page_val at 1. cbn [attr_next_cursor].
    rewrite Hc. cbn [andb].
    unfold bind at 1, lift at 1. unfold page_val at 1. cbn [attr_data].
    unfold bind at 1.
    change objects with (set_cursor objects None) at 1.
    change (PyPage (data p1) (next_cursor p1) (has_next_page p1)) with (page_val p1).
    rewrite (objects_loop_run self objects eq_refl pages p1 None _ _ fuel
               Hstop Hsrc Hfuel).
    unfold ret. rewrite !sending_sending. reflexivity.
Qed.

Lemma pagination_terminates_with_source_witness :
  get_gas 2 Demo.client None true Demo.three_pages =
    (Ret (mkResult true (PyStr "")
            (PyPage (map (fun s => PyJson (JStr s)) ["o1"; "o2"; "o3"; "o4"; "o5"])
               None false)),
     mkWorld Demo.three_pages_remote
       (let coins := GetCoins Demo.client "0xa" "0x2::sui::SUI" in
        [RpcPost (GetCoinTypeBalance Demo.client "0xa" "0x2::sui::SUI");
         RpcPost coins;
         RpcPost (set_cursor coins (Some "c1"));
         RpcPost (set_cursor coins (Some "c2"))])) /\
  get_objects 1 Demo.client None true Demo.three_pages =
    (Ret (mkResult true (PyStr "")
            (PyPage (map (fun s => PyJson (JStr s)) ["o1"; "o2"; "o3"; "o4"])
               None false)),
     mkWorld Demo.three_pages_remote
       (let objects := GetObjectsOwnedByAddress Demo.client "0xa" in
        [RpcPost objects; RpcPost (set_cursor objects (Some "c1"))])).
Proof.
  split.
  - assert (Hfuel : List.length [Demo.page2; Demo.page3] <= 2) by (simpl; lia).
    destruct (pagination_terminates_with_source Demo.client 2 "0xa"
                "0x2::sui::SUI" None 5%Z Demo.page1 [Demo.page2; Demo.page3]
                Demo.three_pages Hfuel) as [Hcoins _].
    apply Hcoins.
    + answer_now.
    + reflexivity.
    + source_now.
    + reflexivity.
  - assert (Hfuel : List.length [Demo.page2] <= 1) by (simpl; lia).
    destruct (pagination_terminates_with_source Demo.client 1 "0xa"
                "0x2::sui::SUI" None 5%Z Demo.page1 [Demo.page2]
                Demo.three_pages Hfuel) as [_ Hobjects].
    apply Hobjects.
    + source_now.
    + reflexivity.
    + reflexivity.
Defined.

(** A provider that returns a cursor with every page keeps both loops
    turning: whatever the fuel, it is used up. *)
Lemma endless_answers b history :
  is_valid Demo.client (set_cursor b (Some "0xc")) = true ->
  handle_return b = (fun j => page_val (Demo.page_of_json j)) ->
  method b <> "suix_getBalance" ->
  answers Demo.client (mkWorld Demo.endless_remote history)
    (set_cursor b (Some "0xc"))
    (PyPage [PyJson (JStr "x")] (Some "0xc") true).
Proof.
  intros Hv Hh Hm. split; [exact Hv|].
  exists (Demo.rpc_body (Demo.page_json [JStr "x"] (JStr "0xc") true)),
         (Demo.page_json [JStr "x"] (JStr "0xc") true).
  split; [|split; [reflexivity|split; [reflexivity|]]].
  - simpl. apply String.eqb_neq in Hm. now rewrite Hm.
  - simpl. now rewrite Hh.
Qed.

Lemma endless_coins_loop b :
  txn_required b = false ->
  is_valid Demo.client (set_cursor b (Some "0xc")) = true ->
  handle_return b = (fun j => page_val (Demo.page_of_json j)) ->
  method b <> "suix_getBalance" ->
  forall fuel c0 d acc history,
    coins_loop fuel Demo.client (set_cursor b c0) (PyPage d (Some "0xc") true) acc
      (mkWorld Demo.endless_remote history) =
    (OutOfFuel,
     mkWorld Demo.endless_remote
       (history ++ repeat (RpcPost (set_cursor b (Some "0xc"))) fuel)).
Proof.
  intros Hb Hv Hh Hm.
  induction fuel as [|fuel IH]; intros c0 d acc history.
  - simpl. now rewrite app_nil_r.
  - rewrite (coins_loop_step fuel Demo.client (set_cursor b c0) d (Some "0xc") true
               acc _ _ _ _ Hb eq_refl (endless_answers b history Hv Hh Hm)).
    change (set_cursor (set_cursor b c0) (Some "0xc"))
      with (set_cursor b (Some "0xc")).
    unfold sending. cbn [remote sent].
    rewrite (IH (Some "0xc")). simpl. now rewrite <- app_assoc.
Qed.

Lemma endless_objects_loop b :
  txn_required b = false ->
  is_valid Demo.client (set_cursor b (Some "0xc")) = true ->
  handle_return b = (fun j => page_val (Demo.page_of_json j)) ->
  method b <> "suix_getBalance" ->
  forall fuel c0 d acc history,
    objects_loop fuel Demo.client (set_cursor b c0) (PyPage d (Some "0xc") true) acc
      (mkWorld Demo.endless_remote history) =
    (OutOfFuel,
     mkWorld Demo.endless_remote
       (history ++ repeat (RpcPost (set_cursor b (Some "0xc"))) fuel)).
Proof.
  intros Hb Hv Hh Hm.
  induction fuel as [|fuel IH]; intros c0 d acc history.
  - simpl. now rewrite app_nil_r.
  - rewrite (objects_loop_step fuel Demo.client (set_cursor b c0) d (Some "0xc")
               true acc _ _ _ _ Hb eq_refl (endless_answers b history Hv Hh Hm)).
    change (set_cursor (set_cursor b c0) (Some "0xc"))
      with (set_cursor b (Some "0xc")).
    unfold sending. cbn [remote sent].
    rewrite (IH (Some "0xc")). simpl. now rewrite <- app_assoc.
Qed.

(** Against C6 as stated: on a provider that keeps returning a cursor
    neither accumulation ends within any number of turns, and the number
    of requests grows with the turns allowed. *)
Lemma pagination_without_ceiling :
  (forall fuel,
      fst (get_gas fuel Demo.client None true Demo.endless) = OutOfFuel /\
      List.length (sent (snd (get_gas fuel Demo.client None true Demo.endless))) =
        2 + fuel) /\
  (forall fuel,
      fst (get_objects fuel Demo.client None true Demo.endless) = OutOfFuel /\
      List.length (sent (snd (get_objects fuel Demo.client None true Demo.endless))) =
        1 + fuel).
Proof.
  assert (Hcoins : forall fuel,
    get_gas fuel Demo.client None true Demo.endless =
    (OutOfFuel,
     mkWorld Demo.endless_remote
       ([RpcPost (GetCoinTypeBalance Demo.client "0xa" "0x2::sui::SUI");
         RpcPost (GetCoins Demo.client "0xa" "0x2::sui::SUI")] ++
        repeat (RpcPost (set_cursor (GetCoins Demo.client "0xa" "0x2::sui::SUI")
                           (Some "0xc"))) fuel))).
  { intros fuel.
    unfold get_gas, _get_coins_for_type. cbn [Demo.client config active_address].
    unfold bind at 1.
    rewrite execute_plain by reflexivity. cbn -[coins_loop execute].
    unfold bind at 1.
    rewrite execute_plain by reflexivity. cbn -[coins_loop].
    unfold bind at 1. unfold sending, Demo.endless, page_val.
    cbn [remote sent data next_cursor has_next_page app].
    change (GetCoins Demo.client "0xa" "0x2::sui::SUI")
      with (set_cursor (GetCoins Demo.client "0xa" "0x2::sui::SUI") None) at 1.
    rewrite endless_coins_loop; try reflexivity. discriminate. }
  assert (Hobjects : forall fuel,
    get_objects fuel Demo.client None true Demo.endless =
    (OutOfFuel,
     mkWorld Demo.endless_remote
       ([RpcPost (GetObjectsOwnedByAddress Demo.client "0xa")] ++
        repeat (RpcPost (set_cursor (GetObjectsOwnedByAddress Demo.client "0xa")
                           (Some "0xc"))) fuel))).
  { intros fuel.
    unfold get_objects. cbn [Demo.client config active_address].
    unfold bind at 1.
    rewrite execute_plain by reflexivity. cbn -[objects_loop].
    unfold bind at 1. unfold sending, Demo.endless, page_val.
    cbn [remote sent data next_cursor has_next_page app].
    change (GetObjectsOwnedByAddress Demo.client "0xa")
      with (set_cursor (GetObjectsOwnedByAddress Demo.client "0xa") None) at 1.
    rewrite endless_objects_loop; try reflexivity. discriminate. }
  split; intros fuel; [rewrite Hcoins | rewrite Hobjects]; cbn [fst snd sent];
    rewrite length_app, repeat_length; simpl; auto.
Qed.

(* ===================================================================== *)
(** ** Chunked multi-get                                                   *)
(* ===================================================================== *)

Section Slices.
Context {A : Type}.





End Slices.








(* ===================================================================== *)
(** ** Further properties of the execution entry points                    *)
(* ===================================================================== *)



(** X2.  On the non-signing path of [execute] an [error] field wins: the
    failure envelope carries the whole error object and no data, whether
    or not the body also has a [result].  A body with neither field
    makes the call raise [KeyError('result')].  One request is posted
    either way. *)
Theorem execute_error_and_missing_result self b a w fields :
  txn_required b = false ->
  is_valid self b = true ->
  remote w (sent w) (RpcPost b) = Body fields ->
  (forall e,
      lookup "error" fields = Some e ->
      execute self b a w =
      (Ret (mkResult false (PyJson e) PyNone), sending w [RpcPost b])) /\
  (lookup "error" fields = None ->
   lookup "result" fields = None ->
   execute self b a w = (Raise (KeyError "result"), sending w [RpcPost b])).
Proof.
  intros Hb Hv Hr. rewrite (execute_plain self b a w Hb Hv), Hr. split.
  - intros e He. now rewrite He.
  - intros He Hres. now rewrite He, Hres.
Qed.

Lemma execute_error_and_missing_result_witness :
  execute Demo.client Demo.get_object None Demo.refusing =
  (Ret (mkResult false
          (PyJson (JObj [("code", JNum (-32000));
                         ("message", JStr "Invalid signature")]))
          PyNone),
   mkWorld (remote Demo.refusing) [RpcPost Demo.get_object]).
Proof.
  destruct (execute_error_and_missing_result Demo.client Demo.get_object None
              Demo.refusing Demo.rpc_error eq_refl eq_refl eq_refl) as [H _].
  exact (H _ eq_refl).
Defined.

(** X3.  [execute_no_sign] on a transactional builder reports an error
    response by its [message] alone: the failure envelope carries the
    message, not the error object.  An error object without a message
    makes the call raise [KeyError('message')], and an error that is not
    an object makes it raise [TypeError]. *)
Theorem execute_no_sign_error_message self b w fields e :
  txn_required b = true ->
  is_valid self b = true ->
  remote w (sent w) (RpcPost b) = Body fields ->
  lookup "error" fields = Some e ->
  (forall f m,
      e = JObj f -> lookup "message" f = Some m ->
      execute_no_sign self b w =
      (Ret (mkResult false (PyJson m) PyNone), sending w [RpcPost b])) /\
  (forall f,
      e = JObj f -> lookup "message" f = None ->
      execute_no_sign self b w =
      (Raise (KeyError "message"), sending w [RpcPost b])) /\
  ((forall f, e <> JObj f) ->
   execute_no_sign self b w = (Raise TypeError, sending w [RpcPost b])).
Proof.
  intros Hb Hv Hr He. rewrite (execute_no_sign_txn self b w Hb Hv), Hr, He.
  repeat split.
  - intros f m -> Hm. simpl. now rewrite Hm.
  - intros f -> Hm. simpl. now rewrite Hm.
  - intros Hno. destruct e; try reflexivity. now destruct (Hno fields0).
Qed.

Lemma execute_no_sign_error_message_witness :
  execute_no_sign Demo.client Demo.transfer Demo.refusing =
  (Ret (mkResult false (PyJson (JStr "Invalid signature")) PyNone),
   mkWorld (remote Demo.refusing) [RpcPost Demo.transfer]).
Proof.
  destruct (execute_no_sign_error_message Demo.client Demo.transfer
              Demo.refusing Demo.rpc_error
              (JObj [("code", JNum (-32000)); ("message", JStr "Invalid signature")])
              eq_refl eq_refl eq_refl eq_refl) as [H _].
  exact (H _ _ eq_refl eq_refl).
Defined.

(** X4.  Given a builder that is not transactional,
    [execute_with_multisig] returns the envelope of [_execute] as it is:
    the raw body is not passed to the builder's [handle_return], and a
    body with an [error] field still comes back flagged as a success. *)
Theorem execute_with_multisig_plain_builder self b ms pks signers w :
  txn_required b = false ->
  is_valid self b = true ->
  execute_with_multisig self b ms pks signers w =
    (Ret (transport_envelope (remote w (sent w) (RpcPost b))),
     sending w [RpcPost b]) /\
  (forall fields,
      remote w (sent w) (RpcPost b) = Body fields ->
      fst (execute_with_multisig self b ms pks signers w) =
      Ret (mkResult true PyNone (PyJson (JObj fields)))).
Proof.
  intros Hb Hv. unfold execute_with_multisig.
  rewrite Hb, _execute_eq by assumption.
  split; [reflexivity|]. intros fields Hr. now rewrite Hr.
Qed.

Lemma execute_with_multisig_plain_builder_witness :
  fst (execute_with_multisig Demo.client Demo.get_object Demo.signing_multisig
         ["pk1"] None Demo.refusing) =
  Ret (mkResult true PyNone (PyJson (JObj Demo.rpc_error))).
Proof.
  destruct (execute_with_multisig_plain_builder Demo.client Demo.get_object
              Demo.signing_multisig ["pk1"] None Demo.refusing eq_refl eq_refl)
    as [_ H].
  exact (H Demo.rpc_error eq_refl).
Defined.

(** X5.  When the no-sign round trip of [execute_with_multisig] does not
    yield the bytes, its outcome is the outcome of the call: nothing is
    signed and no second request is posted. *)
Theorem multisig_construct_failure self b ms pks signers w :
  txn_required b = true ->
  (forall tx, ~ answers self w b tx) ->
  execute_with_multisig self b ms pks signers w = execute_no_sign self b w /\
  (is_valid self b = true ->
   sent (snd (execute_with_multisig self b ms pks signers w)) =
     sent w ++ [RpcPost b]).
Proof.
  intros Hb Hno.
  destruct (no_sign_failure_is_not_ok self b w Hb Hno)
    as (o & w' & Hrun & Hfail & Hw).
  assert (H : execute_with_multisig self b ms pks signers w =
              execute_no_sign self b w).
  { unfold execute_with_multisig. rewrite Hb. unfold bind at 1. rewrite Hrun.
    destruct o as [r| |]; try reflexivity.
    now rewrite (Hfail r eq_refl). }
  split; [exact H|]. intros Hv. now rewrite H, Hrun, (Hw Hv).
Qed.

Lemma demo_offline_no_answer self b : forall tx, ~ answers self Demo.offline b tx.
Proof. intros tx (_ & fields & res & H & _). discriminate H. Qed.

Lemma multisig_construct_failure_witness :
  execute_with_multisig Demo.client Demo.transfer Demo.signing_multisig
    ["pk1"] None Demo.offline =
  (Ret (mkResult false (PyStr "HTTPX error: ConnectError")
          (PyJson (JObj [("_request", JNull)]))),
   mkWorld (remote Demo.offline) [RpcPost Demo.transfer]).
Proof.
  destruct (multisig_construct_failure Demo.client Demo.transfer
              Demo.signing_multisig ["pk1"] None Demo.offline eq_refl
              (demo_offline_no_answer Demo.client Demo.transfer)) as [H _].
  rewrite H. reflexivity.
Defined.

(** X6.  Without additional signers [execute_with_multisig] submits the
    aggregate signature alone, and it asks for
    [WAITFORLOCALEXECUTION] whatever request type the client was made
    with. *)
Theorem multisig_without_signers self b ms pks w tx :
  txn_required b = true ->
  answers self w b tx ->
  is_SuiSignature (sign ms tx pks) = true ->
  let exec_tx :=
    ExecuteTransaction self tx [sign ms tx pks] WAITFORLOCALEXECUTION in
  execute_with_multisig self b ms pks None w =
    execute self exec_tx None (sending w [RpcPost b]) /\
  (is_valid self exec_tx = true ->
   sent (snd (execute_with_multisig self b ms pks None w)) =
     sent w ++ [RpcPost b; RpcPost exec_tx]) /\
  In ("request_type", PyStr "WaitForLocalExecution") (params exec_tx).
Proof.
  intros Hb Ha Hs exec_tx.
  assert (H : execute_with_multisig self b ms pks None w =
              execute self exec_tx None (sending w [RpcPost b])).
  { rewrite (execute_with_multisig_signing self b ms pks None w tx Hb Ha).
    now rewrite Hs. }
  split; [exact H|]. split.
  - intros Hv. rewrite H, execute_plain_world by (reflexivity || assumption).
    simpl. now rewrite <- app_assoc.
  - simpl. auto.
Qed.

Lemma multisig_without_signers_witness :
  sent (snd (execute_with_multisig Demo.effects_client Demo.transfer
               Demo.signing_multisig ["pk1"] None Demo.healthy)) =
  [RpcPost Demo.transfer;
   RpcPost (mkBuilder "sui_executeTransactionBlock" false ""
              [("tx_bytes", PyStr "AAEC"); ("signatures", PyList [PySig "agg"]);
               ("request_type", PyStr "WaitForLocalExecution")]
              None PyJson)].
Proof.
  assert (Ha : answers Demo.effects_client Demo.healthy Demo.transfer (PyStr "AAEC"))
    by answer_now.
  destruct (multisig_without_signers Demo.effects_client Demo.transfer
              Demo.signing_multisig ["pk1"] Demo.healthy
              (PyStr "AAEC") eq_refl Ha eq_refl)
    as (_ & H & _).
  exact (H eq_refl).
Defined.

(** X7.  On the signing path of [execute], once the bytes are signed and
    the execute builder is posted: a response with an [error] field
    gives the failure envelope that carries the error object; a response
    that is not a decoded body (malformed JSON, transport failure) makes
    the call raise [KeyError('error')].  Two requests were posted in
    both cases. *)
Theorem signed_execute_error_paths self b a w tx exec_b :
  txn_required b = true ->
  answers self w b tx ->
  sign_for_execution self tx b a = Ret exec_b ->
  is_valid self exec_b = true ->
  let w1 := sending w [RpcPost b] in
  (forall fields e,
      remote w1 (sent w1) (RpcPost exec_b) = Body fields ->
      lookup "error" fields = Some e ->
      execute self b a w =
      (Ret (mkResult false (PyJson e) PyNone),
       sending w [RpcPost b; RpcPost exec_b])) /\
  ((forall fields, remote w1 (sent w1) (RpcPost exec_b) <> Body fields) ->
   execute self b a w =
   (Raise (KeyError "error"), sending w [RpcPost b; RpcPost exec_b])).
Proof.
  intros Hb Ha Hs Hv w1.
  destruct (is_valid_payload self exec_b Hv) as [payload Hp].
  rewrite (execute_txn self b a w Hb),
          (multi_signed_after_construct self b a w tx Hb Ha), Hs, Hp.
  change (remote w (sent w ++ [RpcPost b]) (RpcPost exec_b))
    with (remote w1 (sent w1) (RpcPost exec_b)).
  split.
  - intros fields e Hr He. now rewrite Hr, He.
  - intros Hno.
    destruct (remote w1 (sent w1) (RpcPost exec_b)) as [fields|j|h];
      [now destruct (Hno fields) | reflexivity | reflexivity].
Qed.

Lemma signed_execute_error_paths_witness :
  execute Demo.client Demo.transfer None Demo.garbled =
  (Raise (KeyError "error"),
   mkWorld Demo.garbled_remote
     [RpcPost Demo.transfer;
      RpcPost (ExecuteTransaction Demo.client (PyStr "AAEC") [PySig "a:AAEC"]
                 WAITFORLOCALEXECUTION)]).
Proof.
  assert (Ha : answers Demo.client Demo.garbled Demo.transfer (PyStr "AAEC"))
    by answer_now.
  destruct (signed_execute_error_paths Demo.client Demo.transfer None
              Demo.garbled (PyStr "AAEC")
              (ExecuteTransaction Demo.client (PyStr "AAEC") [PySig "a:AAEC"]
                 WAITFORLOCALEXECUTION)
              eq_refl Ha eq_refl eq_refl) as [_ H].
  apply H. intros fields Hf. discriminate Hf.
Defined.

(** X8.  [dry_run] on a transactional builder makes the no-sign round
    trip and then runs a dry-run builder over the bytes it returned: two
    requests, the second one the dry run, and nothing is signed.  When
    the no-sign round trip does not yield the bytes, its outcome is
    returned after that single request. *)
Theorem dry_run_round_trips self b w :
  txn_required b = true ->
  (forall tx,
      answers self w b tx ->
      dry_run self b w =
        execute self (DryRunTransaction self tx) None (sending w [RpcPost b]) /\
      (is_valid self (DryRunTransaction self tx) = true ->
       sent (snd (dry_run self b w)) =
         sent w ++ [RpcPost b; RpcPost (DryRunTransaction self tx)])) /\
  ((forall tx, ~ answers self w b tx) ->
   dry_run self b w = execute_no_sign self b w /\
   (is_valid self b = true ->
    sent (snd (dry_run self b w)) = sent w ++ [RpcPost b])).
Proof.
  intros Hb. split.
  - intros tx Ha.
    assert (H : dry_run self b w =
                execute self (DryRunTransaction self tx) None
                  (sending w [RpcPost b])).
    { unfold dry_run. rewrite Hb. unfold bind at 1.
      now rewrite (execute_no_sign_answers self b w tx Hb Ha). }
    split; [exact H|]. intros Hv.
    rewrite H, execute_plain_world by (reflexivity || assumption). simpl.
    now rewrite <- app_assoc.
  - intros Hno.
    destruct (no_sign_failure_is_not_ok self b w Hb Hno)
      as (o & w' & Hrun & Hfail & Hw).
    assert (H : dry_run self b w = execute_no_sign self b w).
    { unfold dry_run. rewrite Hb. unfold bind at 1. rewrite Hrun.
      destruct o as [r| |]; try reflexivity.
      now rewrite (Hfail r eq_refl). }
    split; [exact H|]. intros Hv. now rewrite H, Hrun, (Hw Hv).
Qed.

Lemma dry_run_round_trips_witness :
  sent (snd (dry_run Demo.client Demo.transfer Demo.healthy)) =
  [RpcPost Demo.transfer; RpcPost (DryRunTransaction Demo.client (PyStr "AAEC"))].
Proof.
  destruct (dry_run_round_trips Demo.client Demo.transfer Demo.healthy eq_refl)
    as [H _].
  exact (proj2 (H (PyStr "AAEC") demo_transfer_answers) eq_refl).
Defined.

(* ===================================================================== *)
(** ** [sign_and_submit]                                                   *)
(* ===================================================================== *)

Lemma keypairs_for_resolved cfg :
  forall addresses kpairs,
    Forall2 (fun addy kpair => keypair_for_address cfg addy = Ret kpair)
      addresses kpairs ->
    keypairs_for cfg addresses = Ret kpairs.
Proof.
  induction 1 as [|addy kpair addresses kpairs H _ IH]; [reflexivity|].
  simpl. now rewrite H, IH.
Qed.

Lemma sign_and_submit_resolved self signer tx a w kpairs inner :
  keypairs_for (config self) (signer :: array_of a) = Ret kpairs ->
  attr_tx_bytes tx = Ret inner ->
  let builder :=
    ExecuteTransaction self tx
      (map (fun kpair => new_sign_secure kpair inner) kpairs)
      (request_type self) in
  is_valid self builder = true ->
  sign_and_submit self signer tx a w =
  (match remote w (sent w) (RpcPost builder) with
   | Body fields =>
       match lookup "error" fields with
       | Some _ => Ret (mkResult true PyNone (PyJson (JObj fields)))
       | None =>
           match lookup "result" fields with
           | Some res => Ret (mkResult true PyNone (handle_return builder res))
           | None => Raise (KeyError "result")
           end
       end
   | other => Ret (transport_envelope other)
   end,
   sending w [RpcPost builder]).
Proof.
  intros Hk Hi builder Hv. unfold sign_and_submit.
  unfold bind at 1, lift at 1. rewrite Hk.
  unfold bind at 1, lift at 1. rewrite Hi.
  fold builder. unfold bind at 1. rewrite _execute_eq by assumption.
  destruct (remote w (sent w) (RpcPost builder)) as [fields|j|h]; simpl;
    try reflexivity.
  run. rewrite has_key_lookup.
  destruct (lookup "error" fields); simpl; try reflexivity.
  destruct (lookup "result" fields); reflexivity.
Qed.

(** X9.  [sign_and_submit] resolves the signer before anything is sent:
    when the key ring has no key pair for the signer the lookup's
    exception leaves the call and no request was posted. *)
Theorem sign_and_submit_unknown_signer self signer tx a w e :
  keypair_for_address (config self) signer = Raise e ->
  sign_and_submit self signer tx a w = (Raise e, w).
Proof.
  intros H. unfold sign_and_submit. unfold bind at 1, lift at 1.
  simpl. now rewrite H.
Qed.

Lemma sign_and_submit_unknown_signer_witness :
  sign_and_submit Demo.client "0xdead" (PyTxBytes "AAEC") None Demo.healthy =
  (Raise (UnknownAddress "0xdead"), Demo.healthy).
Proof.
  apply (sign_and_submit_unknown_signer Demo.client "0xdead" (PyTxBytes "AAEC")
           None Demo.healthy (UnknownAddress "0xdead")).
  reflexivity.
Defined.

(** X10.  [sign_and_submit] posts one request, an execute-transaction
    builder over the bytes given, with the client's own request type and
    with the signer's signature first and those of the additional
    signers after it in the order given, each made over the bytes inside
    [tx_bytes].  An error-free answer comes back as a success envelope
    around the builder's reading of the result. *)
Theorem sign_and_submit_signatures self signer s additional w kpair kpairs :
  keypair_for_address (config self) signer = Ret kpair ->
  Forall2 (fun addy k => keypair_for_address (config self) addy = Ret k)
    (array_of additional) kpairs ->
  let builder :=
    ExecuteTransaction self (PyTxBytes s)
      (new_sign_secure kpair (PyStr s) ::
       map (fun k => new_sign_secure k (PyStr s)) kpairs)
      (request_type self) in
  (is_valid self builder = true ->
   sent (snd (sign_and_submit self signer (PyTxBytes s) additional w)) =
     sent w ++ [RpcPost builder]) /\
  (forall v,
      answers self w builder v ->
      fst (sign_and_submit self signer (PyTxBytes s) additional w) =
      Ret (mkResult true PyNone v)).
Proof.
  intros Hk Hks builder.
  assert (Hall : keypairs_for (config self) (signer :: array_of additional) =
                 Ret (kpair :: kpairs)).
  { apply keypairs_for_resolved. now constructor. }
  pose proof (sign_and_submit_resolved self signer (PyTxBytes s) additional w
                (kpair :: kpairs) (PyStr s) Hall eq_refl) as Hrun.
  cbn [map] in Hrun. fold builder in Hrun. cbv zeta in Hrun.
  split.
  - intros Hv. now rewrite (Hrun Hv).
  - intros v (Hv & fields & res & Hr & He & Hres & Hh). rewrite (Hrun Hv).
    cbn [fst]. now rewrite Hr, He, Hres, Hh.
Qed.

Lemma sign_and_submit_signatures_witness :
  sent (snd (sign_and_submit Demo.client "0xb" (PyTxBytes "AAEC")
               (Some ["0xa"]) Demo.healthy)) =
  [RpcPost (ExecuteTransaction Demo.client (PyTxBytes "AAEC")
              [PySig "b:AAEC"; PySig "a:AAEC"] WAITFORLOCALEXECUTION)].
Proof.
  assert (Hks : Forall2
                  (fun addy k => keypair_for_address (config Demo.client) addy = Ret k)
                  (array_of (Some ["0xa"])) [Demo.key "a"]).
  { constructor; [reflexivity | constructor]. }
  destruct (sign_and_submit_signatures Demo.client "0xb" "AAEC" (Some ["0xa"])
              Demo.healthy (Demo.key "b") [Demo.key "a"] eq_refl Hks) as [H _].
  exact (H eq_refl).
Defined.

(** X11.  A decode or transport failure of the round trip of
    [sign_and_submit] comes back as the failure envelope of [_execute];
    the call does not raise on it. *)
Theorem sign_and_submit_transport_failure self signer s additional w kpairs :
  keypairs_for (config self) (signer :: array_of additional) = Ret kpairs ->
  let builder :=
    ExecuteTransaction self (PyTxBytes s)
      (map (fun k => new_sign_secure k (PyStr s)) kpairs) (request_type self) in
  is_valid self builder = true ->
  (forall fields, remote w (sent w) (RpcPost builder) <> Body fields) ->
  sign_and_submit self signer (PyTxBytes s) additional w =
    (Ret (transport_envelope (remote w (sent w) (RpcPost builder))),
     sending w [RpcPost builder]) /\
  is_ok (transport_envelope (remote w (sent w) (RpcPost builder))) = false.
Proof.
  intros Hk builder Hv Hno.
  rewrite (sign_and_submit_resolved self signer (PyTxBytes s) additional w
             kpairs (PyStr s) Hk eq_refl Hv).
  fold builder.
  destruct (remote w (sent w) (RpcPost builder)) as [fields|j|h];
    [now destruct (Hno fields) | split; reflexivity | split; reflexivity].
Qed.

Lemma sign_and_submit_transport_failure_witness :
  fst (sign_and_submit Demo.client "0xa" (PyTxBytes "AAEC") None Demo.offline) =
  Ret (mkResult false (PyStr "HTTPX error: ConnectError")
         (PyJson (JObj [("_request", JNull)]))).
Proof.
  destruct (sign_and_submit_transport_failure Demo.client "0xa" "AAEC" None
              Demo.offline [Demo.key "a"] eq_refl eq_refl) as [H _].
  - intros fields Hf. discriminate Hf.
  - rewrite H. reflexivity.
Defined.

(* ===================================================================== *)
(** ** Edges of the listing methods and the faucet                         *)
(* ===================================================================== *)

Lemma execute_plain_unanswered self b a w :
  txn_required b = false ->
  (forall v, ~ answers self w b v) ->
  exists o w',
    execute self b a w = (o, w') /\
    (forall r, o = Ret r -> is_ok r = false) /\
    (is_valid self b = true -> w' = sending w [RpcPost b]).
Proof.
  intros Hb Hno.
  destruct (execute self b a w) as [o w1] eqn:E.
  exists o, w1. split; [reflexivity|]. split.
  - intros r ->. destruct (is_ok r) eqn:Hok; [|reflexivity].
    destruct (execute_plain_ok self b a w r _ Hb E Hok) as [Ha _].
    now destruct (Hno _ Ha).
  - intros Hv. pose proof (execute_plain_world self b a w Hb Hv) as Hw.
    now rewrite E in Hw.
Qed.

(** X12.  Coin listing asks for the balance first.  When that request is
    not answered with a result its outcome is the outcome of the call
    and no coin is asked for.  When the count it reports does not exceed
    [max_gets], one page of coins is asked for and its envelope
    returned, [fetch_all] or not. *)
Theorem coins_balance_gate fuel self address coin_type fetch_all w :
  let balance := GetCoinTypeBalance self address coin_type in
  let coins := GetCoins self address coin_type in
  ((forall v, ~ answers self w balance v) ->
   _get_coins_for_type fuel self address coin_type fetch_all w =
     execute self balance None w /\
   (is_valid self balance = true ->
    sent (snd (_get_coins_for_type fuel self address coin_type fetch_all w)) =
      sent w ++ [RpcPost balance])) /\
  (forall n,
      answers self w balance (PyBalance n) ->
      (n <= max_gets self)%Z ->
      _get_coins_for_type fuel self address coin_type fetch_all w =
        execute self coins None (sending w [RpcPost balance]) /\
      (is_valid self coins = true ->
       sent (snd (_get_coins_for_type fuel self address coin_type fetch_all w)) =
         sent w ++ [RpcPost balance; RpcPost coins])).
Proof.
  intros balance coins. split.
  - intros Hno.
    destruct (execute_plain_unanswered self balance None w eq_refl Hno)
      as (o & w' & Hrun & Hfail & Hw).
    assert (H : _get_coins_for_type fuel self address coin_type fetch_all w =
                execute self balance None w).
    { unfold _get_coins_for_type. fold balance. unfold bind at 1. rewrite Hrun.
      destruct o as [r| |]; try reflexivity.
      now rewrite (Hfail r eq_refl). }
    split; [exact H|]. intros Hv. now rewrite H, Hrun, (Hw Hv).
  - intros n Ha Hn.
    assert (H : _get_coins_for_type fuel self address coin_type fetch_all w =
                execute self coins None (sending w [RpcPost balance])).
    { unfold _get_coins_for_type. fold balance. fold coins. unfold bind at 1.
      rewrite (execute_answers self balance None w _ eq_refl Ha).
      cbn [is_ok result_status result_data].
      unfold bind at 1, lift at 1. cbn [attr_coin_object_count].
      assert (E : (n >? max_gets self)%Z = false)
        by (rewrite Z.gtb_ltb; apply Z.ltb_ge; lia).
      now rewrite E. }
    split; [exact H|]. intros Hv.
    rewrite H, execute_plain_world by (reflexivity || assumption). simpl.
    now rewrite <- app_assoc.
Qed.

Lemma coins_balance_gate_witness :
  get_gas 0 Demo.client None true Demo.offline =
  (Ret (mkResult false (PyStr "HTTPX error: ConnectError")
          (PyJson (JObj [("_request", JNull)]))),
   mkWorld (remote Demo.offline)
     [RpcPost (GetCoinTypeBalance Demo.client "0xa" "0x2::sui::SUI")]).
Proof.
  destruct (coins_balance_gate 0 Demo.client "0xa" "0x2::sui::SUI" true
              Demo.offline) as [H _].
  destruct (H (demo_offline_no_answer Demo.client _)) as [Hrun _].
  unfold get_gas. cbn [Demo.client config active_address].
  rewrite Hrun. reflexivity.
Defined.

(** X13.  Object listing returns the envelope of its first request as it
    is, [fetch_all] or not, in two cases: when the request is not
    answered with a result, and when the first page carries no cursor.
    One request was posted and nothing is accumulated. *)
Theorem get_objects_first_request fuel self owner fetch_all w :
  let objects :=
    GetObjectsOwnedByAddress self
      match owner with
      | Some a => a
      | None => active_address (config self)
      end in
  ((forall v, ~ answers self w objects v) ->
   get_objects fuel self owner fetch_all w = execute self objects None w) /\
  (forall p,
      answers self w objects (page_val p) ->
      truthy (next_cursor p) = false ->
      get_objects fuel self owner fetch_all w =
      (Ret (mkResult true PyNone (page_val p)), sending w [RpcPost objects])).
Proof.
  intros objects. split.
  - intros Hno.
    destruct (execute_plain_unanswered self objects None w eq_refl Hno)
      as (o & w' & Hrun & Hfail & _).
    unfold get_objects. fold objects. unfold bind at 1. rewrite Hrun.
    destruct o as [r| |]; try reflexivity.
    now rewrite (Hfail r eq_refl).
  - intros p Ha Hc.
    unfold get_objects. fold objects. unfold bind at 1.
    rewrite (execute_answers self objects None w _ eq_refl Ha).
    cbn [is_ok result_status result_data].
    unfold bind at 1, lift at 1. unfold page_val at 1. cbn [attr_next_cursor].
    now rewrite Hc.
Qed.

Lemma get_objects_first_request_witness :
  get_objects 0 Demo.client (Some "0xb") true Demo.offline =
  (Ret (mkResult false (PyStr "HTTPX error: ConnectError")
          (PyJson (JObj [("_request", JNull)]))),
   mkWorld (remote Demo.offline)
     [RpcPost (GetObjectsOwnedByAddress Demo.client "0xb")]).
Proof.
  destruct (get_objects_first_request 0 Demo.client (Some "0xb") true
              Demo.offline) as [H _].
  rewrite (H (demo_offline_no_answer Demo.client _)). reflexivity.
Defined.

(** X14.  The faucet request posts once, for the address given or else
    the active address, and reads the [error] field of the body.  An
    error that is not null gives a failure envelope that carries it, and
    a body without the field makes the call raise [KeyError('error')].
    With a null error the body is decoded as a receipt: the receipt
    comes back in a success envelope; a [TypeError] of the decoder gives
    the failure envelope [Type error]; a [KeyError] of the decoder
    leaves the call. *)
Theorem faucet_body_outcomes self for_address w fields :
  let recipient :=
    match for_address with
    | Some a => a
    | None => active_address (config self)
    end in
  remote w (sent w) (FaucetPost recipient) = Body fields ->
  snd (get_gas_from_faucet self for_address w) =
    sending w [FaucetPost recipient] /\
  (forall e,
      lookup "error" fields = Some e -> e <> JNull ->
      fst (get_gas_from_faucet self for_address w) =
      Ret (mkResult false (PyJson e) PyNone)) /\
  (lookup "error" fields = None ->
   fst (get_gas_from_faucet self for_address w) = Raise (KeyError "error")) /\
  (lookup "error" fields = Some JNull ->
   (forall receipt,
       faucet_from_dict (catalog self) (JObj fields) = Ret receipt ->
       fst (get_gas_from_faucet self for_address w) =
       Ret (mkResult true PyNone receipt)) /\
   (faucet_from_dict (catalog self) (JObj fields) = Raise TypeError ->
    fst (get_gas_from_faucet self for_address w) =
    Ret (mkResult false (PyStr "Type error") (PyJson (JObj [])))) /\
   (forall key,
       faucet_from_dict (catalog self) (JObj fields) = Raise (KeyError key) ->
       fst (get_gas_from_faucet self for_address w) = Raise (KeyError key))).
Proof.
  intros recipient Hr. unfold get_gas_from_faucet. fold recipient.
  unfold bind, post. rewrite Hr. unfold lift, faucet_result. cbn [getitem fst snd].
  split; [reflexivity|]. split; [|split].
  - intros e He Hne. rewrite He.
    destruct e; try reflexivity. now destruct Hne.
  - intros He. now rewrite He.
  - intros He. rewrite He. cbn [is_None]. repeat split.
    + intros receipt Hd. now rewrite Hd.
    + intros Hd. now rewrite Hd.
    + intros key Hd. now rewrite Hd.
Qed.

Lemma faucet_body_outcomes_witness :
  get_gas_from_faucet Demo.client None Demo.healthy =
    (Ret (mkResult true PyNone
            (PyFaucet (JObj [("error", JNull); ("transferredGasObjects", JArr [])]))),
     mkWorld (remote Demo.healthy) [FaucetPost "0xa"]) /\
  fst (get_gas_from_faucet Demo.client None Demo.bare_faucet) =
    Raise (KeyError "transferred_gas_objects").
Proof.
  split.
  - destruct (faucet_body_outcomes Demo.client None Demo.healthy
                [("error", JNull); ("transferredGasObjects", JArr [])] eq_refl)
      as (Hw & _ & _ & Hnull).
    destruct (Hnull eq_refl) as (Hok & _).
    rewrite (surjective_pairing (get_gas_from_faucet Demo.client None Demo.healthy)).
    rewrite Hw, (Hok _ eq_refl). reflexivity.
  - destruct (faucet_body_outcomes Demo.client None Demo.bare_faucet
                [("error", JNull)] eq_refl) as (_ & _ & _ & Hnull).
    destruct (Hnull eq_refl) as (_ & _ & Hkey).
    exact (Hkey "transferred_gas_objects" eq_refl).
Defined.

(** X15.  Of the failures of its round trip the faucet request turns two
    into failure envelopes: a body that is not JSON
    ([JSON Decoder Error <msg>]) and a read timeout
    ([HTTP read timeout error]).  Every other transport failure leaves
    the call as the exception it is. *)
Theorem faucet_failure_outcomes self for_address w :
  let recipient :=
    match for_address with
    | Some a => a
    | None => active_address (config self)
    end in
  (forall jexc,
      remote w (sent w) (FaucetPost recipient) = BadJson jexc ->
      fst (get_gas_from_faucet self for_address w) =
      Ret (mkResult false (PyStr ("JSON Decoder Error " ++ msg jexc)%string)
             (PyJson (json_vars jexc)))) /\
  (remote w (sent w) (FaucetPost recipient) = HttpxFail ReadTimeout ->
   fst (get_gas_from_faucet self for_address w) =
   Ret (mkResult false (PyStr "HTTP read timeout error")
          (PyJson (httpx_vars ReadTimeout)))) /\
  (forall hexc,
      remote w (sent w) (FaucetPost recipient) = HttpxFail hexc ->
      hexc <> ReadTimeout ->
      fst (get_gas_from_faucet self for_address w) = Raise (HttpxError hexc)).
Proof.
  intros recipient. unfold get_gas_from_faucet. fold recipient.
  unfold bind, post. repeat split.
  - intros jexc Hr. now rewrite Hr.
  - intros Hr. now rewrite Hr.
  - intros hexc Hr Hne. rewrite Hr. destruct hexc; try reflexivity.
    now destruct Hne.
Qed.

(** X16.  When the additional signers of [execute_with_multisig] are
    objects that can sign, the builder posted for execution carries one
    signature more than there are signers: the aggregate one first, then
    one per signer in the order given, each made over the bytes of the
    no-sign round trip. *)
Theorem multisig_signature_order self b ms pks ks w tx :
  txn_required b = true ->
  answers self w b tx ->
  is_SuiSignature (sign ms tx pks) = true ->
  let signatures :=
    sign ms tx pks :: map (fun kpair => new_sign_secure kpair tx) ks in
  let exec_tx := ExecuteTransaction self tx signatures WAITFORLOCALEXECUTION in
  execute_with_multisig self b ms pks (Some (map SignerKeyPair ks)) w =
    execute self exec_tx None (sending w [RpcPost b]) /\
  (is_valid self exec_tx = true ->
   sent (snd (execute_with_multisig self b ms pks (Some (map SignerKeyPair ks)) w)) =
     sent w ++ [RpcPost b; RpcPost exec_tx]) /\
  In ("signatures", PyList signatures) (params exec_tx) /\
  List.length signatures = 1 + List.length ks /\
  nth_error signatures 0 = Some (sign ms tx pks) /\
  (forall i kpair,
      nth_error ks i = Some kpair ->
      nth_error signatures (S i) = Some (new_sign_secure kpair tx)).
Proof.
  intros Hb Ha Hs signatures exec_tx.
  assert (Heach : sign_each (map SignerKeyPair ks) tx =
                  Ret (map (fun kpair => new_sign_secure kpair tx) ks)).
  { clear. induction ks as [|k ks IH]; [reflexivity|].
    simpl. now rewrite IH. }
  assert (Hrun : execute_with_multisig self b ms pks
                   (Some (map SignerKeyPair ks)) w =
                 execute self exec_tx None (sending w [RpcPost b])).
  { rewrite (execute_with_multisig_signing self b ms pks _ w tx Hb Ha).
    now rewrite Hs, Heach. }
  split; [exact Hrun|]. split.
  - intros Hv. rewrite Hrun, execute_plain_world by (reflexivity || assumption).
    simpl. now rewrite <- app_assoc.
  - split; [simpl; auto|]. split; [simpl; now rewrite length_map|].
    split; [reflexivity|].
    intros i kpair Hi. simpl.
    exact (map_nth_error (fun k => new_sign_secure k tx) i ks Hi).
Qed.

Lemma multisig_signature_order_witness :
  let signatures := [PySig "agg"; PySig "a:AAEC"; PySig "b:AAEC"] in
  sent (snd (execute_with_multisig Demo.client Demo.transfer
               Demo.signing_multisig ["pk1"; "pk2"]
               (Some [SignerKeyPair (Demo.key "a"); SignerKeyPair (Demo.key "b")])
               Demo.healthy)) =
    [RpcPost Demo.transfer;
     RpcPost (ExecuteTransaction Demo.client (PyStr "AAEC") signatures
                WAITFORLOCALEXECUTION)] /\
  List.length signatures = 3.
Proof.
  destruct (multisig_signature_order Demo.client Demo.transfer
              Demo.signing_multisig ["pk1"; "pk2"]
              [Demo.key "a"; Demo.key "b"] Demo.healthy (PyStr "AAEC")
              eq_refl demo_transfer_answers eq_refl)
    as (_ & Hsent & _ & Hlen & _).
  split; [exact (Hsent eq_refl) | exact Hlen].
Defined.
